(** * awskit: request dispatch, request verification and the S3 bucket wrapper

    A shallow embedding of the Go packages [lambda], [lambdahttp] and
    [awskit] (the S3 wrapper).  Calls that leave the package (the logger,
    the handlers registered in the router, the httpx helpers that read the
    clock or parse headers, the ECDSA primitive, the S3 client and its
    waiter) are calls of a small program monad: a program is the tree of
    the calls it makes, an environment answers them, and running a program
    yields its result together with the sequence of calls it made and the
    answers it got. *)

From stdpp Require Import gmap strings list vector pretty.
From Stdlib Require Import ZArith.
From Stdlib.Strings Require Import Byte.

Open Scope Z_scope.

(** ** Programs over external calls *)

Module effects.
Section Prog.
Context {E : Type} {Ans : E → Type}.

Inductive Prog (R : Type) : Type :=
| Ret (r : R)
| Call (e : E) (k : Ans e → Prog R).
Arguments Ret {R} r.
Arguments Call {R} e k.

Fixpoint bind {A B} (p : Prog A) (f : A → Prog B) : Prog B :=
  match p with
  | Ret a => f a
  | Call e k => Call e (λ x, bind (k x) f)
  end.

Definition call (e : E) : Prog (Ans e) := Call e Ret.

(** An environment answers a call from its current state [W]. *)
Context {W : Type} (answer : ∀ e : E, W → Ans e * W).

(** [run p w] is the result of [p], the final state of the environment and
    the calls made, in order, each with the answer it got. *)
Fixpoint run {R} (p : Prog R) (w : W) : R * W * list (sigT Ans) :=
  match p with
  | Ret r => (r, w, [])
  | Call e k =>
      let a := answer e w in
      let r := run (k a.1) a.2 in
      (r.1.1, r.1.2, existT e a.1 :: r.2)
  end.

Definition result {R} (p : Prog R) (w : W) : R := (run p w).1.1.
Definition final {R} (p : Prog R) (w : W) : W := (run p w).1.2.
Definition trace {R} (p : Prog R) (w : W) : list (sigT Ans) := (run p w).2.
Definition calls {R} (p : Prog R) (w : W) : list E := projT1 <$> trace p w.

End Prog.
Arguments Prog E Ans R : clear implicits.
Arguments Ret {E Ans R} r.
Arguments Call {E Ans R} e k.
End effects.
Import effects.

#[global] Instance Prog_ret {E Ans} : MRet (Prog E Ans) := λ _ r, Ret r.
#[global] Instance Prog_bind {E Ans} : MBind (Prog E Ans) := λ _ _ f p, bind p f.

(** ** github.com/aws/aws-lambda-go/events: the request and response types *)

Module events.

(** [APIGatewayV2HTTPRequest.RequestContext.HTTP] *)
Record HTTPDescription := {
  Method : string;
  Path : string;
  SourceIP : string;
  UserAgent : string;
}.

(** [APIGatewayV2HTTPRequest]; a Go string is a byte sequence, as is a
    Rocq [string].  A [Request] is what a non-nil [*Request] points to:
    [Handle] reads its request, and calls [BuildContext] and the logger,
    before it defers the function that recovers, so a nil request, or a
    panic of those calls, leaves [Handle] as a panic; the dispatch below
    starts after that point. *)
Record Request := {
  RawPath : string;
  RawQueryString : string;
  Headers : gmap string string;
  HTTP : HTTPDescription;
  Body : string;
}.

(** [APIGatewayV2HTTPResponse]; [RespHeaders = None] is the nil map. *)
Record Response := {
  StatusCode : Z;
  RespHeaders : option (gmap string string);
  RespBody : string;
}.

End events.
Export events.

(** ** What both dispatch packages share

    [lambda] is written against [sugar/errorx], [sugar/httpx] and
    [sugar/contexts], [lambdahttp] against [sugar/v2/xerror], [xhttp] and
    [xcontext]; the two have the same shape and are modelled once. *)

Module sugar.

(** A Go [error] as the dispatch packages build them: a plain
    [errors.New] text, or a coded error of errorx/xerror. *)
Inductive error :=
| errors_New (text : string)
| errorx_Error (code : Z) (message : string).

Definition NotFound (message : string) : error := errorx_Error 404 message.
Definition NotAcceptable (message : string) : error := errorx_Error 406 message.
Definition NotImplemented (message : string) : error := errorx_Error 501 message.

(** [err.Error()] *)
Definition error_string (err : error) : string :=
  match err with
  | errors_New text => text
  | errorx_Error _ message => message
  end.

(** The status an error stands for: its code, and 500 for an error that
    carries none. *)
Definition error_status (err : error) : Z :=
  match err with
  | errors_New _ => 500
  | errorx_Error code _ => code
  end.

(** A value of Go's [any], as a panic carries it: the nil interface, or a
    value, of which only its [fmt.Sprint] rendering matters here. *)
Inductive any :=
| any_nil
| any_value (rendering : string).

Definition fmt_Sprint (v : any) : string :=
  match v with
  | any_nil => "<nil>"
  | any_value rendering => rendering
  end.

(** The runtime's panic on [p.f] for a nil [p]. *)
Definition nil_dereference : any :=
  any_value "runtime error: invalid memory address or nil pointer dereference".

(** How a call of a function of type [Func] ends: it returns a [*Response]
    (nil is [None]), or it panics with a value. *)
Inductive Outcome :=
| Returned (resp : option Response)
| Panicked (v : any).

(** [recover()] in a deferred function.  The module declares [go 1.19]
    (go.mod), where [recover] returns the value given to [panic], so nil
    after [panic(nil)] as well as when nothing panicked. *)
Definition recover (o : Outcome) : any :=
  match o with
  | Returned _ => any_nil
  | Panicked v => v
  end.

(** The named result [resp] when the deferred function runs: what was
    returned, or still nil when the handler call panicked before the
    assignment. *)
Definition named_result (o : Outcome) : option Response :=
  match o with
  | Returned resp => resp
  | Panicked _ => None
  end.

(** How a call of [ecdsa.VerifyASN1] ends: with its boolean, or in a panic
    of the library, which dereferences the key it is given and so panics
    on a nil key and on a key without a curve. *)
Inductive Verification :=
| Verified (ok : bool)
| VerifyPanicked (v : any).

Inductive Level := Info | Error_level.

Section Router.
Context {Func : Type}.

(** [router.Handler]: a node of a route's handler chain, the function at
    this node and the functions after it. *)
Record Handler := mkHandler { Handler_Handler : Func; Handler_rest : list Func }.

Definition Handler_Next (h : Handler) : option Handler :=
  match Handler_rest h with
  | [] => None
  | fn :: rest => Some (mkHandler fn rest)
  end.

(** [router.Endpoint] *)
Record Endpoint := { Endpoint_Handler : Handler }.

(** The part of a [context.Context] the packages read and write: the trace
    id and the next handler of the chain. *)
Record Context := {
  TraceID : string;
  NextHandler : option Handler;
}.

Definition GetTraceID (ctx : Context) : string := TraceID ctx.
Definition WithNextHandler (ctx : Context) (next : option Handler) : Context :=
  {| TraceID := TraceID ctx; NextHandler := next |}.

End Router.
Arguments Handler Func : clear implicits.
Arguments Endpoint Func : clear implicits.
Arguments Context Func : clear implicits.

(** The calls that leave the package. *)
Inductive Call {Func PublicKey : Type} :=
| Log (level : Level) (msg : string) (fields : list (string * string))
| Invoke (fn : Func) (ctx : Context Func) (request : Request)
| router_Next (ctx : Context Func) (request : Request)
| CheckTimestamp (headers : gmap string string)
| DecodeSign (headers : gmap string string)
| VerifyASN1 (pub : PublicKey) (hash : list byte) (sig : list byte).
Arguments Call Func PublicKey : clear implicits.

(** What each call gives back: a handler call ends in an [Outcome],
    [CheckTimestamp] in an error or nil, [DecodeSign] in the signature
    bytes or an error, [ecdsa.VerifyASN1] in a [Verification]. *)
Definition Ans {Func PublicKey} (c : Call Func PublicKey) : Type :=
  match c with
  | Log _ _ _ => unit
  | Invoke _ _ _ => Outcome
  | router_Next _ _ => Outcome
  | CheckTimestamp _ => option error
  | DecodeSign _ => list byte + error
  | VerifyASN1 _ _ _ => Verification
  end.

(** The functions, types and constants a package imports.  Package lambda
    takes them from sugar, package lambdahttp from sugar/v2, and each has
    its own [BuildContext] and [Error]: an instance stands for those of
    one package, and a statement about both packages is one about each. *)
Class Externals := {
  (** the type of registered handlers, and the values of type
      [*ecdsa.PublicKey], the nil pointer and keys without a curve among
      them *)
  Func : Type;
  PublicKey : Type;
  (** [router.Router[Func]] and its [Match]; [None] is the nil endpoint *)
  Router : Type;
  Match : Router → string → string → option (Endpoint Func);
  (** [BuildContext] and [Error] of the package itself *)
  BuildContext : Context Func → Request → Context Func;
  Error : error → Response;
  (** header names, [GetHeader] and [jsonx.ToString] *)
  KeyTraceID : string;
  KeyTimestamp : string;
  KeyContentType : string;
  KeyAppID : string;
  KeyClientID : string;
  KeyAuthorization : string;
  GetHeader : gmap string string → string → string;
  ToString : gmap string string → string;
  (** [md5.Sum] returns a [[16]byte], [sha256.Sum256] a [[32]byte] *)
  md5_Sum : string → vec byte 16;
  sha256_Sum256 : string → vec byte 32;
}.

Section Helpers.
Context `{Externals}.

Definition M := Prog (Call Func PublicKey) Ans.

Definition do (c : Call Func PublicKey) : M (Ans c) := call c.

(** [httpx.SetTraceID(h, id)] stores [id] under the trace-id key of the
    map it is given. *)
Definition SetTraceID (h : gmap string string) (id : string) : gmap string string :=
  <[KeyTraceID := id]> h.

(** [bytes.Buffer]: [WriteString] appends, [Bytes] reads the content. *)
Definition Buffer := string.
Definition Buffer_zero : Buffer := "".
Definition WriteString (buf : Buffer) (s : string) : Buffer := buf +:+ s.
Definition Bytes (buf : Buffer) : string := buf.

End Helpers.

(** Modelled from the spec: [Error], the function of the package that
    renders an error as a response.  The spec has every error rendered "as a structured response with an HTTP-appropriate
    status code (400-class for malformed/unauthenticated, 404 for no
    matching route, 501 for a handler producing nothing, 500-class for
    recovered panics)", "carrying the failure's string representation". *)
Record Error_contract `{Externals} : Prop := {
  Error_StatusCode : ∀ err, StatusCode (Error err) = error_status err;
  Error_Body : ∀ err, RespBody (Error err) = error_string err;
}.

Definition Error_model (err : error) : Response :=
  {| StatusCode := error_status err;
     RespHeaders := None;
     RespBody := error_string err |}.

(** Modelled from the spec: [CheckTimestamp] of httpx/xhttp.  The spec has
    the freshness check "fail with Unacceptable if missing, malformed, or
    outside the allowed clock-skew window"; an Unacceptable error is one
    with the code of [NotAcceptable], and an environment keeps to this
    when every error its timestamp check reports is one. *)
Definition Unacceptable (err : error) : Prop := error_status err = 406.

Definition timestamp_contract `{Externals} {W : Type}
    (answer : ∀ c : Call Func PublicKey, W → Ans c * W) : Prop :=
  ∀ headers w err, (answer (CheckTimestamp headers) w).1 = Some err → Unacceptable err.

(** Modelled from the spec: [DecodeSign] of httpx/xhttp.  The spec has the
    signature decoding "fail with BadRequest/Unacceptable if absent or
    malformed", both client errors: an environment keeps to this when
    every error its decoder reports carries a 4xx code. *)
Definition decode_contract `{Externals} {W : Type}
    (answer : ∀ c : Call Func PublicKey, W → Ans c * W) : Prop :=
  ∀ headers w err,
    (answer (DecodeSign headers) w).1 = inr err → 400 ≤ error_status err < 500.

End sugar.
Export sugar.

(** ** Package lambda *)

Module lambda.
Section Package.
Context `{Externals}.

(** The function [Handle] defers.  It runs when the body of [Handle] has
    ended in [o]: after a panic that [recover] reports it replaces the
    result and returns; otherwise it reads [resp.StatusCode] (a panic of
    its own when [resp] is nil), logs, and completes the headers. *)
Definition Handle_deferred (traceID : string) (o : Outcome) : M Outcome :=
  match recover o with
  | any_value _ as msg =>
      do (Log Error_level "caught a panic" [("error", fmt_Sprint msg)]);;
      mret (Returned (Some (Error (errors_New (fmt_Sprint msg)))))
  | any_nil =>
      match named_result o with
      | None => mret (Panicked nil_dereference)
      | Some resp =>
          let fields := [("status_code", pretty (StatusCode resp))] in
          (if bool_decide (StatusCode resp < 400) then
             do (Log Info "succeeded" fields)
           else if bool_decide (String.length (RespBody resp) < 1024)%nat then
             do (Log Error_level "failed" (fields ++ [("body", RespBody resp)]))
           else
             do (Log Error_level "failed" fields));;
          let headers :=
            match RespHeaders resp with
            | None => ∅
            | Some h => h
            end in
          mret (Returned (Some
            {| StatusCode := StatusCode resp;
               RespHeaders := Some (SetTraceID headers traceID);
               RespBody := RespBody resp |}))
      end
  end.

Definition Handle (r : Router) (ctx : Context Func) (request : Request) : M Outcome :=
  let ctx := BuildContext ctx request in
  let httpInfo := HTTP request in
  do (Log Info "received"
        [("header", ToString (Headers request));
         ("path", RawPath request);
         ("query", RawQueryString request);
         ("method", Method httpInfo);
         ("user_agent", UserAgent httpInfo);
         ("source_ip", SourceIP httpInfo)]);;
  let traceID := GetTraceID ctx in
  match Match r (Method httpInfo) (RawPath request) with
  | Some endpoint =>
      let handler := Endpoint_Handler endpoint in
      let ctx := WithNextHandler ctx (Handler_Next handler) in
      o ← do (Invoke (Handler_Handler handler) ctx request);
      Handle_deferred traceID
        match o with
        | Returned None =>
            Returned (Some (Error (NotImplemented "no response from handler")))
        | _ => o
        end
  | None =>
      Handle_deferred traceID
        (Returned (Some (Error (NotFound "endpoint not found"))))
  end.

Definition getMessageHashForSigning (req : Request) : list byte :=
  let httpInfo := HTTP req in
  let buf := Buffer_zero in
  let buf := WriteString buf (Method httpInfo) in
  let buf := WriteString buf (Path httpInfo) in
  let buf := WriteString buf (RawQueryString req) in
  let buf := WriteString buf (GetHeader (Headers req) KeyContentType) in
  let buf := WriteString buf (GetHeader (Headers req) KeyAppID) in
  let buf := WriteString buf (GetHeader (Headers req) KeyClientID) in
  let buf := WriteString buf (GetHeader (Headers req) KeyTimestamp) in
  let buf := WriteString buf (GetHeader (Headers req) KeyAuthorization) in
  let hash := sha256_Sum256 (Bytes buf) in
  vec_to_list hash.

Definition Next (ctx : Context Func) (request : Request) : M Outcome :=
  do (router_Next ctx request).

Definition CreateRequestVerifier (pubKey : PublicKey)
    : Context Func → Request → M Outcome :=
  λ ctx request,
    err ← do (CheckTimestamp (Headers request));
    match err with
    | Some err => mret (Returned (Some (Error err)))
    | None =>
        decoded ← do (DecodeSign (Headers request));
        match decoded with
        | inr err => mret (Returned (Some (Error err)))
        | inl sign =>
            let hash := getMessageHashForSigning request in
            verified ← do (VerifyASN1 pubKey hash sign);
            match verified with
            | VerifyPanicked v => mret (Panicked v)
            | Verified true => Next ctx request
            | Verified false =>
                mret (Returned (Some (Error (NotAcceptable "invalid signature"))))
            end
        end
    end.

End Package.
End lambda.

(** ** Package lambdahttp *)

Module lambdahttp.
Section Package.
Context `{Externals}.

(** The function [Handle] defers.  It runs when the body of [Handle] has
    ended in [o]: after a panic that [recover] reports it replaces the
    result and returns; otherwise it reads [resp.StatusCode] (a panic of
    its own when [resp] is nil), logs, and completes the headers. *)
Definition Handle_deferred (ctx : Context Func) (o : Outcome) : M Outcome :=
  match recover o with
  | any_value _ as msg =>
      do (Log Error_level "Panic" [("error", fmt_Sprint msg)]);;
      mret (Returned (Some (Error (errors_New (fmt_Sprint msg)))))
  | any_nil =>
      match named_result o with
      | None => mret (Panicked nil_dereference)
      | Some resp =>
          let fields := [("status_code", pretty (StatusCode resp))] in
          (if bool_decide (StatusCode resp < 400) then
             do (Log Info "End" fields)
           else if bool_decide (String.length (RespBody resp) < 1024)%nat then
             do (Log Error_level "End" (fields ++ [("body", RespBody resp)]))
           else
             do (Log Error_level "End" fields));;
          let headers :=
            match RespHeaders resp with
            | None => ∅
            | Some h => h
            end in
          mret (Returned (Some
            {| StatusCode := StatusCode resp;
               RespHeaders := Some (SetTraceID headers (GetTraceID ctx));
               RespBody := RespBody resp |}))
      end
  end.

Definition Handle (r : Router) (ctx : Context Func) (request : Request) : M Outcome :=
  let ctx := BuildContext ctx request in
  let httpInfo := HTTP request in
  do (Log Info "Start"
        [("header", ToString (Headers request));
         ("path", RawPath request);
         ("query", RawQueryString request);
         ("method", Method httpInfo);
         ("user_agent", UserAgent httpInfo);
         ("source_ip", SourceIP httpInfo)]);;
  match Match r (Method httpInfo) (RawPath request) with
  | Some endpoint =>
      let handler := Endpoint_Handler endpoint in
      let ctx := WithNextHandler ctx (Handler_Next handler) in
      o ← do (Invoke (Handler_Handler handler) ctx request);
      Handle_deferred ctx
        match o with
        | Returned None =>
            Returned (Some (Error (NotImplemented "no response from handler")))
        | _ => o
        end
  | None =>
      Handle_deferred ctx
        (Returned (Some (Error (NotFound ("endpoint not found: " +:+ Method httpInfo +:+ " " +:+ RawPath request)))))
  end.

Definition getMessageHashForSigning (ctx : Context Func) (req : Request) : list byte :=
  let httpInfo := HTTP req in
  let buf := Buffer_zero in
  let buf := WriteString buf (Method httpInfo) in
  let buf := WriteString buf (Path httpInfo) in
  let buf := WriteString buf (RawQueryString req) in
  let buf := WriteString buf (GetHeader (Headers req) KeyTraceID) in
  let buf := WriteString buf (GetHeader (Headers req) KeyTimestamp) in
  let hash := md5_Sum (Bytes buf) in
  vec_to_list hash.

Definition Next (ctx : Context Func) (request : Request) : M Outcome :=
  do (router_Next ctx request).

Definition CreateRequestVerifier (pubKey : PublicKey)
    : Context Func → Request → M Outcome :=
  λ ctx request,
    err ← do (CheckTimestamp (Headers request));
    match err with
    | Some err => mret (Returned (Some (Error err)))
    | None =>
        decoded ← do (DecodeSign (Headers request));
        match decoded with
        | inr err => mret (Returned (Some (Error err)))
        | inl sign =>
            let hash := getMessageHashForSigning ctx request in
            verified ← do (VerifyASN1 pubKey hash sign);
            match verified with
            | VerifyPanicked v => mret (Panicked v)
            | Verified true => Next ctx request
            | Verified false =>
                mret (Returned (Some (Error (NotAcceptable "invalid signature"))))
            end
        end
    end.

End Package.
End lambdahttp.

(** ** Package awskit: the S3 bucket wrapper *)

Module awskit.

(** A Go [error] as the wrapper meets them: an error of the service that
    implements [smithy.APIError], an error that wraps another one (the
    SDK's operation errors, [fmt.Errorf] with [%w]), the error
    [BatchDelete] formats with [%v] from a list of keys, and any other
    error. *)
Inductive error :=
| APIError (code message : string)
| Wrap (text : string) (cause : error)
| Errorf_keys (format : string) (keys : list string)
| OtherError (text : string).

(** [errors.Cause] of code.olapie.com/errors: the innermost error of a
    chain of wrapped errors, nil for nil. *)
Fixpoint Cause_of (err : error) : error :=
  match err with
  | Wrap _ cause => Cause_of cause
  | _ => err
  end.

Definition Cause (err : option error) : option error := Cause_of <$> err.

(** The type assertion [err.(smithy.APIError)] followed by [ErrorCode()]. *)
Definition ErrorCode (err : error) : option string :=
  match err with
  | APIError code _ => Some code
  | _ => None
  end.

(** [time.Duration], in nanoseconds. *)
Definition Duration := Z.
Definition Second : Duration := 1000000000.

(** [types.ObjectCannedACL] is a string type. *)
Record S3Bucket := {
  bucket : string;
  ACL : string;
  CacheControl : string;
}.

Record HeadObjectInput := { HeadObject_Bucket : string; HeadObject_Key : string }.
(** [HeadObjectOutput.Metadata] is a map; [None] is the nil map, which the
    SDK gives for an object without metadata. *)
Record HeadObjectOutput := { Metadata : option (gmap string string) }.
Record ObjectIdentifier := { ObjectIdentifier_Key : string }.
Record DeleteObjectsInput := {
  DeleteObjects_Bucket : string;
  Delete_Objects : list ObjectIdentifier;
}.
(** [types.DeletedObject.Key] is a [*string]; [None] is nil. *)
Record DeletedObject := { Key : option string }.
Record DeleteObjectsOutput := { Deleted : list DeletedObject }.

(** The calls to the S3 client and to its object-not-exists waiter. *)
Inductive Call :=
| HeadObject (input : HeadObjectInput)
| DeleteObject (Bucket Key : string)
| DeleteObjects (input : DeleteObjectsInput)
| ObjectNotExistsWaiter_Wait (input : HeadObjectInput) (maxWaitDur : Duration).

(** A client call gives its output or an error, the waiter an error or nil. *)
Definition Ans (c : Call) : Type :=
  match c with
  | HeadObject _ => (HeadObjectOutput + error)%type
  | DeleteObject _ _ => option error
  | DeleteObjects _ => (DeleteObjectsOutput + error)%type
  | ObjectNotExistsWaiter_Wait _ _ => option error
  end.

Definition M := Prog Call Ans.
Definition do (c : Call) : M (Ans c) := call c.

(** A call of a method either returns or panics. *)
Inductive Outcome (A : Type) :=
| Returns (a : A)
| Panics.
Arguments Returns {A} a.
Arguments Panics {A}.

Definition getHeadObject (s : S3Bucket) (id : string) : M (HeadObjectOutput + error) :=
  let input := {| HeadObject_Bucket := bucket s; HeadObject_Key := id |} in
  do (HeadObject input).

Definition Exists (s : S3Bucket) (id : string) : M (bool * option error) :=
  res ← getHeadObject s id;
  let err := match res with inl _ => None | inr err => Some err end in
  let err := Cause err in
  match err with
  | None => mret (true, None)
  | Some e =>
      match ErrorCode e with
      | Some code =>
          if bool_decide (code = "NotFound") then mret (false, None)
          else mret (false, err)
      | None => mret (false, err)
      end
  end.

Definition Delete (s : S3Bucket) (id : string) : M (option error) :=
  err ← do (DeleteObject (bucket s) id);
  match err with
  | Some err => mret (Some (Wrap "s3.DeleteObject: " err))
  | None =>
      err ← do (ObjectNotExistsWaiter_Wait
                  {| HeadObject_Bucket := bucket s; HeadObject_Key := id |}
                  (Second * 5));
      match err with
      | Some err => mret (Some (Wrap "s3.ObjectNotExistsWaiter.Wait: " err))
      | None => mret None
      end
  end.

(** The loop [for _, del := range output.Deleted { delete(idSet, *del.Key) }];
    [None] is the panic of [*del.Key] on a nil key. *)
Fixpoint delete_Deleted (idSet : gset string) (deleted : list DeletedObject)
    : option (gset string) :=
  match deleted with
  | [] => Some idSet
  | del :: rest =>
      match Key del with
      | None => None
      | Some k => delete_Deleted (idSet ∖ {[k]}) rest
      end
  end.

Section BatchDelete.
(** [conv.GetMapKeys] lists the keys of a Go map, in the order the runtime
    iterates over it. *)
Context (GetMapKeys : gset string → list string).

(** The block [if len(output.Deleted) != len(ids) { ... }] of [BatchDelete]:
    it returns the error of the ids left in [idSet], panics on a nil key,
    or falls through ([Returns None]). *)
Definition undeleted_check (ids : list string) (output : DeleteObjectsOutput)
    : Outcome (option error) :=
  if bool_decide (length (Deleted output) ≠ length ids) then
    let idSet : gset string := list_to_set ids in
    match delete_Deleted idSet (Deleted output) with
    | None => Panics
    | Some idSet =>
        if bool_decide (size idSet ≠ 0%nat) then
          Returns (Some (Errorf_keys "some ids cannot be deleted: %v" (GetMapKeys idSet)))
        else Returns None
    end
  else Returns None.

Definition BatchDelete (s : S3Bucket) (ids : list string) : M (Outcome (option error)) :=
  if bool_decide (length ids = 0%nat) then mret (Returns None)
  else
    let input :=
      {| DeleteObjects_Bucket := bucket s;
         Delete_Objects := (λ id, {| ObjectIdentifier_Key := id |}) <$> ids |} in
    res ← do (DeleteObjects input);
    match res with
    | inr err => mret (Returns (Some (Wrap "s3.DeleteObjects: " err)))
    | inl output =>
        if bool_decide (length (Deleted output) = 0%nat) then mret (Returns None)
        else
          match undeleted_check ids output with
          | Panics => mret Panics
          | Returns (Some err) => mret (Returns (Some err))
          | Returns None =>
              match ids !! 0%nat with
              | None => mret Panics
              | Some id0 =>
                  err ← do (ObjectNotExistsWaiter_Wait
                              {| HeadObject_Bucket := bucket s; HeadObject_Key := id0 |}
                              (Second * 5));
                  match err with
                  | Some err =>
                      mret (Returns (Some (Wrap "s3.ObjectNotExistsWaiter.Wait: " err)))
                  | None => mret (Returns None)
                  end
              end
          end
    end.

End BatchDelete.

Definition GetMetadata (s : S3Bucket) (id : string)
    : M (option (gmap string string) * option error) :=
  res ← getHeadObject s id;
  match res with
  | inr err => mret (None, Some err)
  | inl head => mret (Metadata head, None)
  end.

End awskit.

(** ** Reading a trace *)

Module observe.
Section Observe.
Context `{Externals}.

Definition entry := sigT (@sugar.Ans Func PublicKey).

(** The outcome of a handler call, when the entry is one. *)
Definition handler_outcome (x : entry) : option Outcome :=
  match x with
  | existT c a =>
      match c return sugar.Ans c → option Outcome with
      | Invoke _ _ _ => λ o, Some o
      | _ => λ _, None
      end a
  end.

(** The outcome of the next handler of the chain. *)
Definition next_outcome (x : entry) : option Outcome :=
  match x with
  | existT c a =>
      match c return sugar.Ans c → option Outcome with
      | router_Next _ _ => λ o, Some o
      | _ => λ _, None
      end a
  end.

Definition timestamp_answer (x : entry) : option (option error) :=
  match x with
  | existT c a =>
      match c return sugar.Ans c → option (option error) with
      | CheckTimestamp _ => λ r, Some r
      | _ => λ _, None
      end a
  end.

Definition decode_answer (x : entry) : option (list byte + error) :=
  match x with
  | existT c a =>
      match c return sugar.Ans c → option (list byte + error) with
      | DecodeSign _ => λ r, Some r
      | _ => λ _, None
      end a
  end.

(** The digest and signature a verification was asked about, and its answer. *)
Definition verify_answer (x : entry)
    : option (PublicKey * list byte * list byte * Verification) :=
  match x with
  | existT c a =>
      match c return sugar.Ans c
                     → option (PublicKey * list byte * list byte * Verification) with
      | VerifyASN1 pub hash sig => λ ok, Some (pub, hash, sig, ok)
      | _ => λ _, None
      end a
  end.

Definition handler_outcomes (t : list entry) : list Outcome := omap handler_outcome t.
Definition next_outcomes (t : list entry) : list Outcome := omap next_outcome t.
Definition timestamp_answers (t : list entry) : list (option error) := omap timestamp_answer t.
Definition decode_answers (t : list entry) : list (list byte + error) := omap decode_answer t.
Definition verify_answers (t : list entry) := omap verify_answer t.

(** Calls that run a handler: the route's own, or the next of a chain. *)
Definition runs_handler (c : Call Func PublicKey) : bool :=
  match c with
  | Invoke _ _ _ | router_Next _ _ => true
  | _ => false
  end.

(** A response whose header map exists and holds [id] under the trace-id
    key; a map holds a key once. *)
Definition has_trace_header (resp : Response) (id : string) : Prop :=
  ∃ h, RespHeaders resp = Some h ∧ h !! KeyTraceID = Some id.

(** The response [Handle] returns for [resp] on the paths that complete
    it: the header map made if nil, the trace id stored. *)
Definition completed (resp : Response) (id : string) : Response :=
  {| StatusCode := StatusCode resp;
     RespHeaders := Some (SetTraceID (default ∅ (RespHeaders resp)) id);
     RespBody := RespBody resp |}.

(** What the body of [Handle] leaves in [resp] after a handler call that
    ended in [o]: a nil response is replaced by [notimpl]. *)
Definition substituted (notimpl : Response) (o : Outcome) : Outcome :=
  match o with
  | Returned None => Returned (Some notimpl)
  | _ => o
  end.

(** What the deferred function makes of the body's outcome, logging apart. *)
Definition deferred_outcome (o : Outcome) (id : string) : Outcome :=
  match o with
  | Panicked (any_value s) => Returned (Some (Error (errors_New s)))
  | Panicked any_nil | Returned None => Panicked nil_dereference
  | Returned (Some resp) => Returned (Some (completed resp id))
  end.

(** The runs of a request verifier made for [pubKey], on [request] with
    digest [hash]: the calls it makes with their answers, and its outcome. *)
Inductive verifier_run (pubKey : PublicKey) (ctx : Context Func) (request : Request)
    (hash : list byte) : list entry → Outcome → Prop :=
| run_timestamp_rejected e :
    verifier_run pubKey ctx request hash
      [existT (P := sugar.Ans) (CheckTimestamp (Headers request)) (Some e)]
      (Returned (Some (Error e)))
| run_signature_undecodable e :
    verifier_run pubKey ctx request hash
      [existT (P := sugar.Ans) (CheckTimestamp (Headers request)) None;
       existT (P := sugar.Ans) (DecodeSign (Headers request)) (inr e)]
      (Returned (Some (Error e)))
| run_signature_invalid sign :
    verifier_run pubKey ctx request hash
      [existT (P := sugar.Ans) (CheckTimestamp (Headers request)) None;
       existT (P := sugar.Ans) (DecodeSign (Headers request)) (inl sign);
       existT (P := sugar.Ans) (VerifyASN1 pubKey hash sign) (Verified false)]
      (Returned (Some (Error (NotAcceptable "invalid signature"))))
| run_verification_panicked sign v :
    verifier_run pubKey ctx request hash
      [existT (P := sugar.Ans) (CheckTimestamp (Headers request)) None;
       existT (P := sugar.Ans) (DecodeSign (Headers request)) (inl sign);
       existT (P := sugar.Ans) (VerifyASN1 pubKey hash sign) (VerifyPanicked v)]
      (Panicked v)
| run_forwarded sign o :
    verifier_run pubKey ctx request hash
      [existT (P := sugar.Ans) (CheckTimestamp (Headers request)) None;
       existT (P := sugar.Ans) (DecodeSign (Headers request)) (inl sign);
       existT (P := sugar.Ans) (VerifyASN1 pubKey hash sign) (Verified true);
       existT (P := sugar.Ans) (router_Next ctx request) o]
      o.

(** The fields of a request that a profile signs, in the order of the
    profile, and their concatenation. *)
Definition lambdahttp_signing_fields (req : Request) : list string :=
  [Method (HTTP req); Path (HTTP req); RawQueryString req;
   GetHeader (Headers req) KeyTraceID;
   GetHeader (Headers req) KeyTimestamp].

Definition lambda_signing_fields (req : Request) : list string :=
  [Method (HTTP req); Path (HTTP req); RawQueryString req;
   GetHeader (Headers req) KeyContentType;
   GetHeader (Headers req) KeyAppID;
   GetHeader (Headers req) KeyClientID;
   GetHeader (Headers req) KeyTimestamp;
   GetHeader (Headers req) KeyAuthorization].

Definition canonical_string (fields : list string) : string :=
  foldr String.append "" fields.

(** An environment without state, given by what it answers. *)
Record Behaviour := {
  on_Invoke : Func → Context Func → Request → Outcome;
  on_Next : Context Func → Request → Outcome;
  on_CheckTimestamp : gmap string string → option error;
  on_DecodeSign : gmap string string → list byte + error;
  on_VerifyASN1 : PublicKey → list byte → list byte → Verification;
}.

Definition stateless (b : Behaviour) (c : Call Func PublicKey) (w : unit)
    : sugar.Ans c * unit :=
  (match c return sugar.Ans c with
   | Log _ _ _ => tt
   | Invoke fn ctx request => on_Invoke b fn ctx request
   | router_Next ctx request => on_Next b ctx request
   | CheckTimestamp h => on_CheckTimestamp b h
   | DecodeSign h => on_DecodeSign b h
   | VerifyASN1 pub hash sig => on_VerifyASN1 b pub hash sig
   end, w).

End Observe.
End observe.
Import observe.

(** ** Reading a trace of the S3 wrapper *)

Module s3observe.
Import awskit.

Definition entry := sigT awskit.Ans.

Definition head_answer (x : entry) : option (HeadObjectOutput + error) :=
  match x with
  | existT c a =>
      match c return awskit.Ans c → option (HeadObjectOutput + error) with
      | HeadObject _ => λ r, Some r
      | _ => λ _, None
      end a
  end.

Definition delete_objects_answer (x : entry) : option (DeleteObjectsOutput + error) :=
  match x with
  | existT c a =>
      match c return awskit.Ans c → option (DeleteObjectsOutput + error) with
      | DeleteObjects _ => λ r, Some r
      | _ => λ _, None
      end a
  end.

(** The key and the bound of a wait, when the call is one. *)
Definition wait_of (c : Call) : option (string * Duration) :=
  match c with
  | ObjectNotExistsWaiter_Wait input maxWaitDur => Some (HeadObject_Key input, maxWaitDur)
  | _ => None
  end.

Definition head_answers (t : list entry) := omap head_answer t.
Definition delete_objects_answers (t : list entry) := omap delete_objects_answer t.
Definition waits (cs : list Call) : list (string * Duration) := omap wait_of cs.

(** The keys the service reports as deleted. *)
Definition deleted_keys (output : DeleteObjectsOutput) : list (option string) :=
  Key <$> Deleted output.

(** What [BatchDelete] does after a [DeleteObjects] call that answered
    [output]: nothing more when nothing was deleted or when the check of
    the deleted keys ends the call, and else one wait, for [ids[0]] and of
    five seconds. *)
Definition after_DeleteObjects (GetMapKeys : gset string → list string)
    (ids : list string) (output : DeleteObjectsOutput)
    (res : Outcome (option error)) (ws : list (string * Duration)) : Prop :=
  if bool_decide (length (Deleted output) = 0%nat) then res = Returns None ∧ ws = []
  else
    match undeleted_check GetMapKeys ids output with
    | Panics => res = Panics ∧ ws = []
    | Returns (Some err) => res = Returns (Some err) ∧ ws = []
    | Returns None =>
        ∃ id0, ids !! 0%nat = Some id0 ∧ ws = [(id0, Second * 5)]
               ∧ (res = Returns None
                  ∨ ∃ err, res = Returns (Some (Wrap "s3.ObjectNotExistsWaiter.Wait: " err)))
    end.

(** An environment without state, given by what it answers. *)
Record Behaviour := {
  on_HeadObject : HeadObjectInput → HeadObjectOutput + error;
  on_DeleteObject : string → string → option error;
  on_DeleteObjects : DeleteObjectsInput → DeleteObjectsOutput + error;
  on_Wait : HeadObjectInput → Duration → option error;
}.

Definition stateless (b : Behaviour) (c : Call) (w : unit) : awskit.Ans c * unit :=
  (match c return awskit.Ans c with
   | HeadObject input => on_HeadObject b input
   | DeleteObject bkt key => on_DeleteObject b bkt key
   | DeleteObjects input => on_DeleteObjects b input
   | ObjectNotExistsWaiter_Wait input d => on_Wait b input d
   end, w).

End s3observe.

(** ** Package awskit: construction, [Put] and [Get] *)

Module objects.
Import awskit.

(** The package constant [cacheControl]. *)
Definition cacheControl : string := "public, max-age=14400".

(** The [S3ACL] constants. *)
Definition S3Private : string := "private".
Definition S3PublicRead : string := "public-read".
Definition S3PublicReadWrite : string := "public-read-write".
Definition S3AWSExecRead : string := "aws-exec-read".
Definition S3AuthenticatedRead : string := "authenticated-read".
Definition S3BucketOwnerRead : string := "bucket-owner-read".
Definition S3BucketOwnerFullControl : string := "bucket-owner-full-control".

(** [types.ObjectCannedACLPrivate] of the SDK. *)
Definition ObjectCannedACLPrivate : string := "private".

(** [NewS3Bucket]: the client and the waiters it makes from the
    configuration are the environment of the calls; the value keeps the
    bucket name and the two defaults. *)
Definition NewS3Bucket (bucket : string) : S3Bucket :=
  {| awskit.bucket := bucket;
     ACL := ObjectCannedACLPrivate;
     CacheControl := cacheControl |}.

Record PutObjectInput := {
  PutObject_Bucket : string;
  PutObject_Key : string;
  PutObject_Body : list byte;
  PutObject_ACL : string;
  PutObject_CacheControl : string;
  PutObject_ContentType : string;
  PutObject_Metadata : gmap string string;
}.

Record GetObjectInput := { GetObject_Bucket : string; GetObject_Key : string }.

Section IO.
(** [io.ReadCloser]: the body of a [GetObject] answer. *)
Context {ReadCloser : Type}.

Record GetObjectOutput := { GetObject_Body : ReadCloser }.

(** The calls of [Put] and [Get]: to the S3 client, and to the body. *)
Inductive Call :=
| PutObject (input : PutObjectInput)
| GetObject (input : GetObjectInput)
| ReadAll (body : ReadCloser)
| Close (body : ReadCloser).

(** [io.ReadAll] gives the bytes read so far together with an error or
    nil; [Close] an error or nil. *)
Definition Ans (c : Call) : Type :=
  match c with
  | PutObject _ => option error
  | GetObject _ => (GetObjectOutput + error)%type
  | ReadAll _ => (list byte * option error)%type
  | Close _ => option error
  end.

Definition M := Prog Call Ans.
Definition do (c : Call) : M (Ans c) := call c.

(** [httpkit.DetectMIMEType] *)
Context (DetectMIMEType : list byte → string).

Definition Put (s : S3Bucket) (id : string) (content : list byte)
    (metadata : gmap string string) : M (option error) :=
  let input :=
    {| PutObject_Bucket := bucket s;
       PutObject_Key := id;
       PutObject_Body := content;
       PutObject_ACL := ACL s;
       PutObject_CacheControl := CacheControl s;
       PutObject_ContentType := DetectMIMEType content;
       PutObject_Metadata := metadata |} in
  err ← do (PutObject input);
  match err with
  | Some err => mret (Some (Wrap "s3.PutObject: " err))
  | None => mret None
  end.

(** [Get] returns the content ([None] is the nil slice) and an error. *)
Definition Get (s : S3Bucket) (id : string) : M (option (list byte) * option error) :=
  let input := {| GetObject_Bucket := bucket s; GetObject_Key := id |} in
  res ← do (GetObject input);
  match res with
  | inr err => mret (None, Some (Wrap "s3.GetObject: " err))
  | inl output =>
      read ← do (ReadAll (GetObject_Body output));
      match read.2 with
      | Some err => mret (None, Some (Wrap "io.ReadAll: " err))
      | None =>
          do (Close (GetObject_Body output));;
          mret (Some read.1, None)
      end
  end.

(** An environment without state, given by what it answers. *)
Record Behaviour := {
  on_PutObject : PutObjectInput → option error;
  on_GetObject : GetObjectInput → GetObjectOutput + error;
  on_ReadAll : ReadCloser → list byte * option error;
  on_Close : ReadCloser → option error;
}.

Definition stateless (b : Behaviour) (c : Call) (w : unit) : Ans c * unit :=
  (match c return Ans c with
   | PutObject input => on_PutObject b input
   | GetObject input => on_GetObject b input
   | ReadAll body => on_ReadAll b body
   | Close body => on_Close b body
   end, w).

End IO.
Arguments Call ReadCloser : clear implicits.
Arguments GetObjectOutput ReadCloser : clear implicits.
Arguments Behaviour ReadCloser : clear implicits.

End objects.

(** ** A route whose first handler is a request verifier *)

Module chain.
Section Chain.
Context `{Externals}.

(** The environment [b] in which the functions [is_verifier] picks out are
    the closure [verifier] made by [CreateRequestVerifier]: calling one
    runs the verifier, whose own calls [b] answers. *)
Definition with_verifier (b : Behaviour) (is_verifier : Func → bool)
    (verifier : Context Func → Request → M Outcome) : Behaviour :=
  {| on_Invoke := λ fn ctx request,
       if is_verifier fn then result (stateless b) (verifier ctx request) ()
       else on_Invoke b fn ctx request;
     on_Next := on_Next b;
     on_CheckTimestamp := on_CheckTimestamp b;
     on_DecodeSign := on_DecodeSign b;
     on_VerifyASN1 := on_VerifyASN1 b |}.

End Chain.
End chain.

(** ** A concrete deployment, for the examples *)

Module demo.

(** A stand-in for a hash function: [n] copies of the length of the input
    modulo 256. *)
Definition digest (n : nat) (s : string) : vec byte n :=
  vreplicate n (default x00 (Byte.of_N (N.of_nat (String.length s) mod 256))).

Definition lookup_route (r : list (string * string * Handler string))
    (method path : string) : option (Endpoint string) :=
  (λ e, {| Endpoint_Handler := e.2.2 |})
    <$> list_find (λ e, e.1 = (method, path)) r.

Definition externals : Externals := {|
  Func := string;
  PublicKey := option string;
  Router := list (string * string * Handler string);
  Match := lookup_route;
  BuildContext := λ ctx request,
    {| TraceID := default "" (Headers request !! "X-Trace-Id");
       NextHandler := NextHandler ctx |};
  Error := Error_model;
  KeyTraceID := "X-Trace-Id";
  KeyTimestamp := "X-Timestamp";
  KeyContentType := "Content-Type";
  KeyAppID := "X-App-Id";
  KeyClientID := "X-Client-Id";
  KeyAuthorization := "Authorization";
  GetHeader := λ h k, default "" (h !! k);
  ToString := λ _, "{}";
  md5_Sum := digest 16;
  sha256_Sum256 := digest 32;
|}.

Definition routes : list (string * string * Handler string) :=
  [("GET", "/items/42", mkHandler "verifier" ["getItem"])].

Definition background : Context string := {| TraceID := ""; NextHandler := None |}.

Definition get (path : string) (headers : gmap string string) : Request :=
  {| RawPath := path;
     RawQueryString := "";
     Headers := headers;
     HTTP := {| Method := "GET"; Path := path;
                SourceIP := "10.0.0.1"; UserAgent := "curl" |};
     Body := "" |}.

Definition signed_headers : gmap string string :=
  {[ "X-Trace-Id" := "trace-1"; "X-Timestamp" := "1700000000"; "X-Sign" := "c2ln" ]}.

Definition ok200 : Response :=
  {| StatusCode := 200; RespHeaders := None; RespBody := "item 42" |}.

(** Handlers that end in [o]; the timestamp check, the decoding and the
    verification answer as given. *)
Definition behaviour (o : Outcome) (ts : option sugar.error)
    (sign : list byte + sugar.error) (valid : bool) : Behaviour (H := externals) :=
  {| on_Invoke := λ _ _ _, o;
     on_Next := λ _ _, o;
     on_CheckTimestamp := λ _, ts;
     on_DecodeSign := λ _, sign;
     on_VerifyASN1 := λ _ _ _, Verified valid |}.

Definition handlers (o : Outcome) : Behaviour (H := externals) :=
  behaviour o None (inl []) true.

Definition env (b : Behaviour (H := externals)) := stateless (H := externals) b.

(** The route's chain run for real: the handler "verifier" is the request
    verifier of package lambda, whose next handler returns the item. *)
Definition chained (valid : bool) : Behaviour (H := externals) :=
  let invoke (fn : string) (ctx : Context string) (request : Request) : Outcome :=
    if bool_decide (fn = "verifier") then
      result (env (behaviour (Returned (Some ok200)) None (inl [x01]) valid))
        (lambda.CreateRequestVerifier (H := externals) (Some "key") ctx request) ()
    else Returned None in
  @Build_Behaviour externals invoke (λ _ _, Returned None) (λ _, None)
    (λ _, inl []) (λ _ _ _, Verified false).

Definition store : awskit.S3Bucket :=
  {| awskit.bucket := "assets"; awskit.ACL := "private";
     awskit.CacheControl := "public, max-age=14400" |}.

Definition deleted (keys : list string) : awskit.DeleteObjectsOutput :=
  {| awskit.Deleted := (λ k, {| awskit.Key := Some k |}) <$> keys |}.

(** An S3 service that answers [DeleteObjects] with [res] and [HeadObject]
    with [head]; single deletions and waits succeed. *)
Definition s3 (head : awskit.HeadObjectOutput + awskit.error)
    (res : awskit.DeleteObjectsOutput + awskit.error) : s3observe.Behaviour :=
  {| s3observe.on_HeadObject := λ _, head;
     s3observe.on_DeleteObject := λ _ _, None;
     s3observe.on_DeleteObjects := λ _, res;
     s3observe.on_Wait := λ _ _, None |}.

Definition found : awskit.HeadObjectOutput + awskit.error :=
  inl {| awskit.Metadata := Some ∅ |}.

(** Go iterates over a map in an order of its own; here, that of [elements]. *)
Definition GetMapKeys (s : gset string) : list string := elements s.

End demo.

(** ** More to read in a trace of the S3 wrapper *)

Module s3reading.
Import awskit s3observe.

Definition delete_object_answer (x : entry) : option (option error) :=
  match x with
  | existT c a =>
      match c return awskit.Ans c → option (option error) with
      | DeleteObject _ _ => λ r, Some r
      | _ => λ _, None
      end a
  end.

Definition wait_answer (x : entry) : option (option error) :=
  match x with
  | existT c a =>
      match c return awskit.Ans c → option (option error) with
      | ObjectNotExistsWaiter_Wait _ _ => λ r, Some r
      | _ => λ _, None
      end a
  end.

Definition delete_object_answers (t : list entry) := omap delete_object_answer t.
Definition wait_answers (t : list entry) := omap wait_answer t.

(** The input [BatchDelete] builds from the ids. *)
Definition DeleteObjects_of (s : S3Bucket) (ids : list string) : Call :=
  DeleteObjects
    {| DeleteObjects_Bucket := bucket s;
       Delete_Objects := (λ id, {| ObjectIdentifier_Key := id |}) <$> ids |}.

(** The wait for the absence of [id], of five seconds. *)
Definition Wait_for (s : S3Bucket) (id : string) : Call :=
  ObjectNotExistsWaiter_Wait
    {| HeadObject_Bucket := bucket s; HeadObject_Key := id |} (Second * 5).

End s3reading.

(** ** Reading a trace of [Put] and [Get] *)

Module objreading.
Import awskit objects.
Section Reading.
Context {ReadCloser : Type}.

Definition entry := sigT (@objects.Ans ReadCloser).

Definition put_answer (x : entry) : option (option error) :=
  match x with
  | existT c a =>
      match c return objects.Ans c → option (option error) with
      | PutObject _ => λ r, Some r
      | _ => λ _, None
      end a
  end.

Definition get_answer (x : entry) : option (GetObjectOutput ReadCloser + error) :=
  match x with
  | existT c a =>
      match c return objects.Ans c → option (GetObjectOutput ReadCloser + error) with
      | GetObject _ => λ r, Some r
      | _ => λ _, None
      end a
  end.

Definition read_answer (x : entry) : option (list byte * option error) :=
  match x with
  | existT c a =>
      match c return objects.Ans c → option (list byte * option error) with
      | ReadAll _ => λ r, Some r
      | _ => λ _, None
      end a
  end.

Definition put_answers (t : list entry) := omap put_answer t.
Definition get_answers (t : list entry) := omap get_answer t.
Definition read_answers (t : list entry) := omap read_answer t.

End Reading.
End objreading.

(** ** More of the demo deployment *)

Module samples.

(** A content sniffer that knows PNG files by their first byte. *)
Definition DetectMIMEType (content : list byte) : string :=
  match content with
  | x89 :: _ => "image/png"
  | _ => "application/octet-stream"
  end.

(** An object store whose bodies are numbered; body [n] reads as [n]
    zero bytes, and body 0 fails to read after one byte. *)
Definition disk (put : option awskit.error)
    (get : objects.GetObjectOutput nat + awskit.error) : objects.Behaviour nat :=
  {| objects.on_PutObject := λ _, put;
     objects.on_GetObject := λ _, get;
     objects.on_ReadAll := λ n : nat,
       match n with
       | O => ([x00], Some (awskit.OtherError "unexpected EOF"))
       | _ => (replicate n x00, None)
       end;
     objects.on_Close := λ _, Some (awskit.OtherError "already closed") |}.

(** An S3 service given by all four answers. *)
Definition s3 (head : awskit.HeadObjectOutput + awskit.error)
    (del : option awskit.error)
    (dels : awskit.DeleteObjectsOutput + awskit.error)
    (wait : option awskit.error) : s3observe.Behaviour :=
  {| s3observe.on_HeadObject := λ _, head;
     s3observe.on_DeleteObject := λ _ _, del;
     s3observe.on_DeleteObjects := λ _, dels;
     s3observe.on_Wait := λ _ _, wait |}.

Definition throttled : awskit.error :=
  awskit.Wrap "operation error S3: " (awskit.APIError "SlowDown" "Please reduce your request rate").

(** The handler of the demo routes that is the request verifier. *)
Definition is_verifier (fn : string) : bool := String.eqb fn "verifier".

(** [GET path] sent with [method] as method. *)
Definition sent_as (method path : string) : Request :=
  {| RawPath := path;
     RawQueryString := "";
     Headers := demo.signed_headers;
     HTTP := {| Method := method; Path := path;
                SourceIP := "10.0.0.1"; UserAgent := "curl" |};
     Body := "" |}.

(** A verification that, like the library's, panics on the nil key. *)
Definition ecdsa (valid : bool) (pub : option string) (hash sig : list byte)
    : Verification :=
  match pub with
  | None => VerifyPanicked nil_dereference
  | Some _ => Verified valid
  end.

(** Fresh timestamp, decodable signature, [ecdsa] as verification, and a
    next handler that ends in [next]. *)
Definition with_ecdsa (next : Outcome) (valid : bool) : Behaviour (H := demo.externals) :=
  @Build_Behaviour demo.externals (λ _ _ _, next) (λ _ _, next) (λ _, None)
    (λ _, inl [x01]) (ecdsa valid).

(** A response of [n] bytes with the given status. *)
Definition sized (status : Z) (n : nat) : Response :=
  {| StatusCode := status;
     RespHeaders := Some {[ "X-Trace-Id" := "from-handler"; "Content-Type" := "text/plain" ]};
     RespBody := foldr String.append "" (replicate n "a") |}.

End samples.

(** * Properties *)

(** ** Running a program *)

Section Run.
Context {E : Type} {Ans : E → Type} {W : Type}.
Context (answer : ∀ e : E, W → Ans e * W).

Lemma run_bind {A B} (p : Prog E Ans A) (f : A → Prog E Ans B) w :
  run answer (p ≫= f) w =
    (result answer (f (result answer p w)) (final answer p w),
     final answer (f (result answer p w)) (final answer p w),
     trace answer p w ++ trace answer (f (result answer p w)) (final answer p w)).
Proof.
  unfold mbind, Prog_bind, result, final, trace.
  revert w. induction p as [a|e k IH]; intros w; cbn.
  - by destruct (run answer (f a) w) as [[b w2] t].
  - by rewrite IH.
Qed.

Lemma result_bind {A B} (p : Prog E Ans A) (f : A → Prog E Ans B) w :
  result answer (p ≫= f) w = result answer (f (result answer p w)) (final answer p w).
Proof. unfold result at 1. by rewrite run_bind. Qed.

Lemma trace_bind {A B} (p : Prog E Ans A) (f : A → Prog E Ans B) w :
  trace answer (p ≫= f) w
  = trace answer p w ++ trace answer (f (result answer p w)) (final answer p w).
Proof. unfold trace at 1. by rewrite run_bind. Qed.

Lemma calls_bind {A B} (p : Prog E Ans A) (f : A → Prog E Ans B) w :
  calls answer (p ≫= f) w
  = calls answer p w ++ calls answer (f (result answer p w)) (final answer p w).
Proof. unfold calls. by rewrite trace_bind, fmap_app. Qed.

(** Every answer in a trace is one the environment gave, in some state. *)
Lemma trace_answered {R} (p : Prog E Ans R) w x :
  x ∈ trace answer p w → ∃ w', projT2 x = (answer (projT1 x) w').1.
Proof.
  revert w. induction p as [r|e k IH]; intros w; unfold trace; cbn.
  - intros Hin. by apply elem_of_nil in Hin.
  - intros [->|Hin]%elem_of_cons; [by exists w|]. by eapply IH.
Qed.

End Run.

(** ** The dispatcher *)

Section Dispatch.
Context `{Externals} {W : Type}.
Context (answer : ∀ c : Call Func PublicKey, W → sugar.Ans c * W).

Lemma StatusCode_completed resp id : StatusCode (completed resp id) = StatusCode resp.
Proof. done. Qed.

Lemma RespBody_completed resp id : RespBody (completed resp id) = RespBody resp.
Proof. done. Qed.

Lemma completed_has_trace_header resp id : has_trace_header (completed resp id) id.
Proof. eexists. split; [done|]. unfold SetTraceID. apply lookup_insert_eq. Qed.

(** The deferred functions log and do nothing else; their result is
    [deferred_outcome]. *)
Lemma lambda_Handle_deferred_run id o w :
  result answer (lambda.Handle_deferred id o) w = deferred_outcome o id
  ∧ handler_outcomes (trace answer (lambda.Handle_deferred id o) w) = []
  ∧ Forall (λ c, runs_handler c = false) (calls answer (lambda.Handle_deferred id o) w).
Proof.
  unfold lambda.Handle_deferred, result, calls, trace, handler_outcomes.
  destruct o as [[resp|]|[|s]]; cbn; repeat case_bool_decide; cbn; auto.
Qed.

Lemma lambdahttp_Handle_deferred_run ctx o w :
  result answer (lambdahttp.Handle_deferred ctx o) w = deferred_outcome o (GetTraceID ctx)
  ∧ handler_outcomes (trace answer (lambdahttp.Handle_deferred ctx o) w) = []
  ∧ Forall (λ c, runs_handler c = false) (calls answer (lambdahttp.Handle_deferred ctx o) w).
Proof.
  unfold lambdahttp.Handle_deferred, result, calls, trace, handler_outcomes.
  destruct o as [[resp|]|[|s]]; cbn; repeat case_bool_decide; cbn; auto.
Qed.

(** [Handle] by cases on the route lookup: without a route no handler runs
    and the not-found response is completed; with a route its first
    handler runs once and the deferred function decides on its outcome. *)
Lemma lambda_Handle_run r ctx request w :
  let p := lambda.Handle r ctx request in
  let id := GetTraceID (BuildContext ctx request) in
  match Match r (Method (HTTP request)) (RawPath request) with
  | None =>
      result answer p w
        = Returned (Some (completed (Error (NotFound "endpoint not found")) id))
      ∧ handler_outcomes (trace answer p w) = []
      ∧ Forall (λ c, runs_handler c = false) (calls answer p w)
  | Some endpoint =>
      ∃ o, handler_outcomes (trace answer p w) = [o]
      ∧ result answer p w
        = deferred_outcome
            (substituted (Error (NotImplemented "no response from handler")) o) id
  end.
Proof.
  intros p id. subst p. unfold lambda.Handle, sugar.M.
  destruct (Match _ _ _) as [endpoint|].
  - rewrite !result_bind, !trace_bind.
    match goal with |- context [trace answer (lambda.Handle_deferred ?i ?o) ?w] =>
      destruct (lambda_Handle_deferred_run i o w) as (Hr & Ht & _) end.
    unfold handler_outcomes in *. rewrite !omap_app, Ht, Hr. cbn.
    eexists; split; reflexivity.
  - rewrite !result_bind, !trace_bind, !calls_bind.
    match goal with |- context [trace answer (lambda.Handle_deferred ?i ?o) ?w] =>
      destruct (lambda_Handle_deferred_run i o w) as (Hr & Ht & Hc) end.
    unfold handler_outcomes in *. rewrite !omap_app, Ht, Hr. cbn.
    split; [done|]. split; [done|]. by constructor.
Qed.

Lemma lambdahttp_Handle_run r ctx request w :
  let p := lambdahttp.Handle r ctx request in
  let id := GetTraceID (BuildContext ctx request) in
  let method := Method (HTTP request) in
  match Match r method (RawPath request) with
  | None =>
      result answer p w
        = Returned (Some (completed
            (Error (NotFound ("endpoint not found: " +:+ method +:+ " " +:+ RawPath request)))
            id))
      ∧ handler_outcomes (trace answer p w) = []
      ∧ Forall (λ c, runs_handler c = false) (calls answer p w)
  | Some endpoint =>
      ∃ o, handler_outcomes (trace answer p w) = [o]
      ∧ result answer p w
        = deferred_outcome
            (substituted (Error (NotImplemented "no response from handler")) o) id
  end.
Proof.
  intros p id method. subst p method. unfold lambdahttp.Handle, sugar.M.
  destruct (Match _ _ _) as [endpoint|].
  - rewrite !result_bind, !trace_bind.
    match goal with |- context [trace answer (lambdahttp.Handle_deferred ?c ?o) ?w] =>
      destruct (lambdahttp_Handle_deferred_run c o w) as (Hr & Ht & _) end.
    unfold handler_outcomes in *. rewrite !omap_app, Ht, Hr. cbn.
    eexists; split; reflexivity.
  - rewrite !result_bind, !trace_bind, !calls_bind.
    match goal with |- context [trace answer (lambdahttp.Handle_deferred ?c ?o) ?w] =>
      destruct (lambdahttp_Handle_deferred_run c o w) as (Hr & Ht & Hc) end.
    unfold handler_outcomes in *. rewrite !omap_app, Ht, Hr. cbn.
    split; [done|]. split; [done|]. by constructor.
Qed.

(** What [Handle] returns once the outcome of the handler call is known. *)
Lemma lambda_Handle_outcome r ctx request w o :
  o ∈ handler_outcomes (trace answer (lambda.Handle r ctx request) w) →
  result answer (lambda.Handle r ctx request) w
  = deferred_outcome
      (substituted (Error (NotImplemented "no response from handler")) o)
      (GetTraceID (BuildContext ctx request)).
Proof.
  intros Ho. pose proof (lambda_Handle_run r ctx request w) as Hrun. cbn zeta in Hrun.
  destruct (Match _ _ _).
  - destruct Hrun as (o' & Ht & Hr). rewrite Ht in Ho.
    apply list_elem_of_singleton in Ho. by subst.
  - destruct Hrun as (_ & Ht & _). rewrite Ht in Ho. by apply elem_of_nil in Ho.
Qed.

Lemma lambdahttp_Handle_outcome r ctx request w o :
  o ∈ handler_outcomes (trace answer (lambdahttp.Handle r ctx request) w) →
  result answer (lambdahttp.Handle r ctx request) w
  = deferred_outcome
      (substituted (Error (NotImplemented "no response from handler")) o)
      (GetTraceID (BuildContext ctx request)).
Proof.
  intros Ho. pose proof (lambdahttp_Handle_run r ctx request w) as Hrun. cbn zeta in Hrun.
  destruct (Match _ _ _).
  - destruct Hrun as (o' & Ht & Hr). rewrite Ht in Ho.
    apply list_elem_of_singleton in Ho. by subst.
  - destruct Hrun as (_ & Ht & _). rewrite Ht in Ho. by apply elem_of_nil in Ho.
Qed.

End Dispatch.

Section DispatchClaims.
Context `{Externals} {W : Type}.
Context (answer : ∀ c : Call Func PublicKey, W → sugar.Ans c * W).

(** On every path but the recovery of a panic the answer of [Handle] is
    completed: when the handler call, if any, returned, [Handle] returns a
    response with a header map that holds the trace id of the request. *)
Lemma Handle_completes_returned_response r ctx request w :
  let id := GetTraceID (BuildContext ctx request) in
  (Forall (λ o, ∃ resp, o = Returned resp)
      (handler_outcomes (trace answer (lambda.Handle r ctx request) w)) →
    ∃ resp, result answer (lambda.Handle r ctx request) w = Returned (Some resp)
            ∧ has_trace_header resp id)
  ∧ (Forall (λ o, ∃ resp, o = Returned resp)
      (handler_outcomes (trace answer (lambdahttp.Handle r ctx request) w)) →
    ∃ resp, result answer (lambdahttp.Handle r ctx request) w = Returned (Some resp)
            ∧ has_trace_header resp id).
Proof.
  intros id.
  pose proof (lambda_Handle_run answer r ctx request w) as H1.
  pose proof (lambdahttp_Handle_run answer r ctx request w) as H2.
  cbn zeta in H1, H2. fold id in H1, H2.
  destruct (Match _ _ _); split; intros Hall.
  - destruct H1 as (o & Ht & ->). rewrite Ht in Hall.
    apply Forall_singleton in Hall as [[resp|] ->]; cbn;
      eauto using completed_has_trace_header.
  - destruct H2 as (o & Ht & ->). rewrite Ht in Hall.
    apply Forall_singleton in Hall as [[resp|] ->]; cbn;
      eauto using completed_has_trace_header.
  - destruct H1 as (-> & _). eauto using completed_has_trace_header.
  - destruct H2 as (-> & _). eauto using completed_has_trace_header.
Qed.

(** C1, the path on which it fails.  When the handler call panics with a
    value, [Handle] returns the very response [Error] built from the
    rendering of that value: the deferred function returns before the
    header map is made and before the trace id is stored, so the response
    has the headers [Error] gave it, whatever the trace id of the request. *)
Theorem Handle_recovered_response_not_completed r ctx request w s :
  (Panicked (any_value s) ∈ handler_outcomes (trace answer (lambda.Handle r ctx request) w) →
    result answer (lambda.Handle r ctx request) w
    = Returned (Some (Error (errors_New s))))
  ∧ (Panicked (any_value s)
       ∈ handler_outcomes (trace answer (lambdahttp.Handle r ctx request) w) →
    result answer (lambdahttp.Handle r ctx request) w
    = Returned (Some (Error (errors_New s)))).
Proof.
  split; intros Ho.
  - by rewrite (lambda_Handle_outcome answer r ctx request w _ Ho).
  - by rewrite (lambdahttp_Handle_outcome answer r ctx request w _ Ho).
Qed.

(** A panic with a value is recovered: under the contract of [Error] the
    answer is a 500 response whose body is the rendering of the value. *)
Lemma Handle_recovers_panic_value r ctx request w s :
  Error_contract →
  (Panicked (any_value s) ∈ handler_outcomes (trace answer (lambda.Handle r ctx request) w) →
    ∃ resp, result answer (lambda.Handle r ctx request) w = Returned (Some resp)
            ∧ StatusCode resp = 500 ∧ RespBody resp = s)
  ∧ (Panicked (any_value s)
       ∈ handler_outcomes (trace answer (lambdahttp.Handle r ctx request) w) →
    ∃ resp, result answer (lambdahttp.Handle r ctx request) w = Returned (Some resp)
            ∧ StatusCode resp = 500 ∧ RespBody resp = s).
Proof.
  intros [Hstatus Hbody]. split; intros Ho; eexists; (split; [|split]).
  - by rewrite (lambda_Handle_outcome answer r ctx request w _ Ho).
  - by rewrite Hstatus.
  - by rewrite Hbody.
  - by rewrite (lambdahttp_Handle_outcome answer r ctx request w _ Ho).
  - by rewrite Hstatus.
  - by rewrite Hbody.
Qed.

(** C2, the case in which it fails.  After [panic(nil)] in the handler
    [recover] returns nil, the deferred function takes the path of a normal
    return and reads [resp.StatusCode] of the nil [resp]: [Handle] itself
    panics, with the runtime's nil-dereference error. *)
Theorem Handle_nil_panic_escapes r ctx request w :
  (Panicked any_nil ∈ handler_outcomes (trace answer (lambda.Handle r ctx request) w) →
    result answer (lambda.Handle r ctx request) w = Panicked nil_dereference)
  ∧ (Panicked any_nil ∈ handler_outcomes (trace answer (lambdahttp.Handle r ctx request) w) →
    result answer (lambdahttp.Handle r ctx request) w = Panicked nil_dereference).
Proof.
  split; intros Ho.
  - by rewrite (lambda_Handle_outcome answer r ctx request w _ Ho).
  - by rewrite (lambdahttp_Handle_outcome answer r ctx request w _ Ho).
Qed.

(** C7.  When no route matches the method and the path, [Handle] returns
    the response [Error] renders from a [NotFound] error, completed with
    the trace header, and none of its calls runs a handler; under the
    contract of [Error] the status is 404. *)
Theorem Handle_unmatched_route_NotFound r ctx request w :
  Match r (Method (HTTP request)) (RawPath request) = None →
  let id := GetTraceID (BuildContext ctx request) in
  let resp1 := completed (Error (NotFound "endpoint not found")) id in
  let resp2 :=
    completed
      (Error (NotFound ("endpoint not found: " +:+ Method (HTTP request)
                          +:+ " " +:+ RawPath request))) id in
  result answer (lambda.Handle r ctx request) w = Returned (Some resp1)
  ∧ result answer (lambdahttp.Handle r ctx request) w = Returned (Some resp2)
  ∧ Forall (λ c, runs_handler c = false) (calls answer (lambda.Handle r ctx request) w)
  ∧ Forall (λ c, runs_handler c = false) (calls answer (lambdahttp.Handle r ctx request) w)
  ∧ (Error_contract → StatusCode resp1 = 404 ∧ StatusCode resp2 = 404).
Proof.
  intros Hmatch id resp1 resp2.
  pose proof (lambda_Handle_run answer r ctx request w) as H1.
  pose proof (lambdahttp_Handle_run answer r ctx request w) as H2.
  cbn zeta in H1, H2. rewrite Hmatch in H1, H2.
  destruct H1 as (Hr1 & _ & Hc1), H2 as (Hr2 & _ & Hc2).
  split_and!; try done.
  intros [Hstatus _]. subst resp1 resp2.
  by rewrite !StatusCode_completed, !Hstatus.
Qed.

(** C8.  When the handler called for the route returns nil, [Handle]
    returns the response [Error] renders from a [NotImplemented] error,
    completed with the trace header, and not nil; under the contract of
    [Error] the status is 501. *)
Theorem Handle_nil_response_NotImplemented r ctx request w :
  let id := GetTraceID (BuildContext ctx request) in
  let resp := completed (Error (NotImplemented "no response from handler")) id in
  (Returned None ∈ handler_outcomes (trace answer (lambda.Handle r ctx request) w) →
    result answer (lambda.Handle r ctx request) w = Returned (Some resp))
  ∧ (Returned None ∈ handler_outcomes (trace answer (lambdahttp.Handle r ctx request) w) →
    result answer (lambdahttp.Handle r ctx request) w = Returned (Some resp))
  ∧ (Error_contract → StatusCode resp = 501).
Proof.
  intros id resp. split_and!.
  - intros Ho. by rewrite (lambda_Handle_outcome answer r ctx request w _ Ho).
  - intros Ho. by rewrite (lambdahttp_Handle_outcome answer r ctx request w _ Ho).
  - intros [Hstatus _]. subst resp. by rewrite StatusCode_completed, Hstatus.
Qed.

End DispatchClaims.

(** The demo deployment renders errors by [Error_model]. *)
Lemma demo_Error_contract : Error_contract (H := demo.externals).
Proof. split; intros []; reflexivity. Defined.

(** A handler that panics with "boom" on [GET /items/42]: the answer is the
    response of [Error], with the nil header map it was built with and no
    trace id, although the request carries the trace id "trace-1". *)
Lemma Handle_recovered_response_not_completed_witness :
  let env := demo.env (demo.handlers (Panicked (any_value "boom"))) in
  let request := demo.get "/items/42" demo.signed_headers in
  let recovered := {| StatusCode := 500; RespHeaders := None; RespBody := "boom" |} in
  result env (lambda.Handle (H := demo.externals) demo.routes demo.background request) ()
    = Returned (Some recovered)
  ∧ result env (lambdahttp.Handle (H := demo.externals) demo.routes demo.background request) ()
    = Returned (Some recovered).
Proof.
  intros env request recovered.
  destruct (Handle_recovered_response_not_completed (H := demo.externals)
              env demo.routes demo.background request () "boom") as [H1 H2].
  split; [apply H1 | apply H2]; vm_compute; constructor.
Defined.

(** The same request with a handler that returns 200: the header map is
    made and holds the trace id. *)
Example Handle_ok_demo :
  result (demo.env (demo.handlers (Returned (Some demo.ok200))))
    (lambda.Handle (H := demo.externals) demo.routes demo.background
       (demo.get "/items/42" demo.signed_headers)) ()
  = Returned (Some {| StatusCode := 200;
                      RespHeaders := Some {[ "X-Trace-Id" := "trace-1" ]};
                      RespBody := "item 42" |}).
Proof. vm_compute. reflexivity. Qed.

(** A request with a valid signature goes through the verifier to the
    handler and comes back as a 200 with the trace header; with an invalid
    one it is answered 406, with the trace header as well. *)
Example Handle_verified_request_demo :
  let request := demo.get "/items/42" demo.signed_headers in
  result (demo.env (demo.chained true))
    (lambda.Handle (H := demo.externals) demo.routes demo.background request) ()
  = Returned (Some {| StatusCode := 200;
                      RespHeaders := Some {[ "X-Trace-Id" := "trace-1" ]};
                      RespBody := "item 42" |})
  ∧ result (demo.env (demo.chained false))
      (lambda.Handle (H := demo.externals) demo.routes demo.background request) ()
    = Returned (Some {| StatusCode := 406;
                        RespHeaders := Some {[ "X-Trace-Id" := "trace-1" ]};
                        RespBody := "invalid signature" |}).
Proof. vm_compute. done. Qed.

(** A handler that calls [panic(nil)]: the call of [Handle] panics. *)
Lemma Handle_nil_panic_escapes_witness :
  let env := demo.env (demo.handlers (Panicked any_nil)) in
  let request := demo.get "/items/42" demo.signed_headers in
  result env (lambda.Handle (H := demo.externals) demo.routes demo.background request) ()
    = Panicked nil_dereference
  ∧ result env (lambdahttp.Handle (H := demo.externals) demo.routes demo.background request) ()
    = Panicked nil_dereference.
Proof.
  intros env request.
  destruct (Handle_nil_panic_escapes (H := demo.externals)
              env demo.routes demo.background request ()) as [H1 H2].
  split; [apply H1 | apply H2]; vm_compute; constructor.
Defined.

(** [GET /nowhere] has no route: a 404 with the trace header, after two
    log calls and nothing else. *)
Lemma Handle_unmatched_route_NotFound_witness :
  let env := demo.env (demo.handlers (Returned (Some demo.ok200))) in
  let request := demo.get "/nowhere" demo.signed_headers in
  result env (lambda.Handle (H := demo.externals) demo.routes demo.background request) ()
    = Returned (Some {| StatusCode := 404;
                        RespHeaders := Some {[ "X-Trace-Id" := "trace-1" ]};
                        RespBody := "endpoint not found" |})
  ∧ result env (lambdahttp.Handle (H := demo.externals) demo.routes demo.background request) ()
    = Returned (Some {| StatusCode := 404;
                        RespHeaders := Some {[ "X-Trace-Id" := "trace-1" ]};
                        RespBody := "endpoint not found: GET /nowhere" |})
  ∧ calls env (lambda.Handle (H := demo.externals) demo.routes demo.background request) ()
    = [Log Info "received"
         [("header", "{}"); ("path", "/nowhere"); ("query", ""); ("method", "GET");
          ("user_agent", "curl"); ("source_ip", "10.0.0.1")];
       Log Error_level "failed" [("status_code", "404"); ("body", "endpoint not found")]]
  ∧ StatusCode (completed (H := demo.externals)
                  (Error (Externals := demo.externals) (NotFound "endpoint not found"))
                  "trace-1") = 404.
Proof.
  intros env request.
  assert (Hmatch : Match (Externals := demo.externals) demo.routes
                     (Method (HTTP request)) (RawPath request) = None)
    by (vm_compute; reflexivity).
  destruct (Handle_unmatched_route_NotFound (H := demo.externals)
              env demo.routes demo.background request () Hmatch)
    as (H1 & H2 & _ & _ & Hstatus).
  split_and!.
  - rewrite H1. vm_compute. reflexivity.
  - rewrite H2. vm_compute. reflexivity.
  - vm_compute. reflexivity.
  - exact (proj1 (Hstatus demo_Error_contract)).
Defined.

(** A handler that returns nil: a 501 with the trace header. *)
Lemma Handle_nil_response_NotImplemented_witness :
  let env := demo.env (demo.handlers (Returned None)) in
  let request := demo.get "/items/42" demo.signed_headers in
  let resp := {| StatusCode := 501;
                 RespHeaders := Some {[ "X-Trace-Id" := "trace-1" ]};
                 RespBody := "no response from handler" |} in
  result env (lambda.Handle (H := demo.externals) demo.routes demo.background request) ()
    = Returned (Some resp)
  ∧ result env (lambdahttp.Handle (H := demo.externals) demo.routes demo.background request) ()
    = Returned (Some resp)
  ∧ StatusCode (completed (H := demo.externals)
                  (Error (Externals := demo.externals)
                     (NotImplemented "no response from handler"))
                  "trace-1") = 501.
Proof.
  intros env request resp.
  destruct (Handle_nil_response_NotImplemented (H := demo.externals)
              env demo.routes demo.background request ()) as (H1 & H2 & Hstatus).
  split_and!.
  - rewrite H1; [|vm_compute; constructor]. vm_compute. reflexivity.
  - rewrite H2; [|vm_compute; constructor]. vm_compute. reflexivity.
  - exact (Hstatus demo_Error_contract).
Defined.

(** ** The canonical signing string *)

Lemma append_empty_r (s : string) : s +:+ "" = s.
Proof.
  induction s as [|c s IH]; [done|].
  change (String c s +:+ "") with (String c (s +:+ "")). by rewrite IH.
Qed.

Lemma append_assoc (s1 s2 s3 : string) : (s1 +:+ s2) +:+ s3 = s1 +:+ (s2 +:+ s3).
Proof.
  induction s1 as [|c s1 IH]; [done|].
  change ((String c s1 +:+ s2) +:+ s3) with (String c ((s1 +:+ s2) +:+ s3)).
  change (String c s1 +:+ s2 +:+ s3) with (String c (s1 +:+ s2 +:+ s3)).
  by rewrite IH.
Qed.

Section Signing.
Context `{Externals}.

(** C3.  Each profile hashes the concatenation of method, path, raw query
    string and its own header values, in this order: trace id and
    timestamp under [md5.Sum], whose digest has 16 bytes, in lambdahttp;
    content type, app id, client id, timestamp and authorization under
    [sha256.Sum256], whose digest has 32 bytes, in lambda.  Two requests
    with the same signing fields have the same digest. *)
Theorem getMessageHashForSigning_canonical :
  (∀ ctx req,
     lambdahttp.getMessageHashForSigning ctx req
     = vec_to_list (md5_Sum (canonical_string (lambdahttp_signing_fields req)))
     ∧ length (lambdahttp.getMessageHashForSigning ctx req) = 16%nat)
  ∧ (∀ req,
     lambda.getMessageHashForSigning req
     = vec_to_list (sha256_Sum256 (canonical_string (lambda_signing_fields req)))
     ∧ length (lambda.getMessageHashForSigning req) = 32%nat)
  ∧ (∀ ctx1 ctx2 req1 req2,
     lambdahttp_signing_fields req1 = lambdahttp_signing_fields req2 →
     lambdahttp.getMessageHashForSigning ctx1 req1
     = lambdahttp.getMessageHashForSigning ctx2 req2)
  ∧ (∀ req1 req2,
     lambda_signing_fields req1 = lambda_signing_fields req2 →
     lambda.getMessageHashForSigning req1 = lambda.getMessageHashForSigning req2).
Proof.
  assert (Hhttp : ∀ ctx req,
    lambdahttp.getMessageHashForSigning ctx req
    = vec_to_list (md5_Sum (canonical_string (lambdahttp_signing_fields req)))).
  { intros ctx req.
    unfold lambdahttp.getMessageHashForSigning, WriteString, Bytes, Buffer_zero.
    cbn [canonical_string lambdahttp_signing_fields foldr].
    by rewrite append_empty_r, !append_assoc. }
  assert (Hlambda : ∀ req,
    lambda.getMessageHashForSigning req
    = vec_to_list (sha256_Sum256 (canonical_string (lambda_signing_fields req)))).
  { intros req.
    unfold lambda.getMessageHashForSigning, WriteString, Bytes, Buffer_zero.
    cbn [canonical_string lambda_signing_fields foldr].
    by rewrite append_empty_r, !append_assoc. }
  split_and!.
  - intros ctx req. split; [done|]. by rewrite Hhttp, length_vec_to_list.
  - intros req. split; [done|]. by rewrite Hlambda, length_vec_to_list.
  - intros ctx1 ctx2 req1 req2 Heq. by rewrite !Hhttp, Heq.
  - intros req1 req2 Heq. by rewrite !Hlambda, Heq.
Qed.

End Signing.

(** Two requests that differ in their body and in a header outside both
    profiles have the same digests. *)
Lemma getMessageHashForSigning_canonical_witness :
  let req1 := demo.get "/items/42" demo.signed_headers in
  let req2 :=
    {| RawPath := "/items/42"; RawQueryString := "";
       Headers := <["Accept" := "text/plain"]> demo.signed_headers;
       HTTP := HTTP req1; Body := "ignored" |} in
  lambdahttp.getMessageHashForSigning (H := demo.externals) demo.background req1
  = lambdahttp.getMessageHashForSigning (H := demo.externals) demo.background req2
  ∧ lambda.getMessageHashForSigning (H := demo.externals) req1
    = lambda.getMessageHashForSigning (H := demo.externals) req2.
Proof.
  intros req1 req2.
  destruct (getMessageHashForSigning_canonical (H := demo.externals))
    as (_ & _ & Hhttp & Hlambda).
  split.
  - apply Hhttp. vm_compute. reflexivity.
  - apply Hlambda. vm_compute. reflexivity.
Defined.

(** ** The request verifier *)

Ltac answer_step answer a :=
  match goal with
  | |- context [answer ?c ?w] =>
      let w' := fresh "w" in destruct (answer c w) as [a w']; cbn
  end.

Section Verifier.
Context `{Externals} {W : Type}.
Context (answer : ∀ c : Call Func PublicKey, W → sugar.Ans c * W).

Lemma lambda_CreateRequestVerifier_run pubKey ctx request w :
  verifier_run pubKey ctx request (lambda.getMessageHashForSigning request)
    (trace answer (lambda.CreateRequestVerifier pubKey ctx request) w)
    (result answer (lambda.CreateRequestVerifier pubKey ctx request) w).
Proof.
  unfold lambda.CreateRequestVerifier, lambda.Next, result, trace. cbn.
  answer_step answer ts. destruct ts as [e|]; cbn; [constructor|].
  answer_step answer decoded. destruct decoded as [sign|e]; cbn; [|constructor].
  answer_step answer verified. destruct verified as [[|]|v]; cbn.
  - answer_step answer o. constructor.
  - constructor.
  - constructor.
Qed.

Lemma lambdahttp_CreateRequestVerifier_run pubKey ctx request w :
  verifier_run pubKey ctx request (lambdahttp.getMessageHashForSigning ctx request)
    (trace answer (lambdahttp.CreateRequestVerifier pubKey ctx request) w)
    (result answer (lambdahttp.CreateRequestVerifier pubKey ctx request) w).
Proof.
  unfold lambdahttp.CreateRequestVerifier, lambdahttp.Next, result, trace. cbn.
  answer_step answer ts. destruct ts as [e|]; cbn; [constructor|].
  answer_step answer decoded. destruct decoded as [sign|e]; cbn; [|constructor].
  answer_step answer verified. destruct verified as [[|]|v]; cbn.
  - answer_step answer o. constructor.
  - constructor.
  - constructor.
Qed.

(** The first call of a verifier is the timestamp check, on the headers of
    the request and in the state the verifier starts in; when the check
    reports an error the verifier makes no other call and answers with
    the rendering of that error. *)
Lemma lambda_verifier_timestamp_rejected pubKey ctx request w e :
  (answer (CheckTimestamp (Headers request)) w).1 = Some e →
  result answer (lambda.CreateRequestVerifier pubKey ctx request) w
    = Returned (Some (Error e))
  ∧ calls answer (lambda.CreateRequestVerifier pubKey ctx request) w
    = [CheckTimestamp (Headers request)].
Proof.
  unfold lambda.CreateRequestVerifier, result, calls, trace. cbn.
  destruct (answer (CheckTimestamp (Headers request)) w) as [ts w1]. cbn.
  by intros ->.
Qed.

Lemma lambdahttp_verifier_timestamp_rejected pubKey ctx request w e :
  (answer (CheckTimestamp (Headers request)) w).1 = Some e →
  result answer (lambdahttp.CreateRequestVerifier pubKey ctx request) w
    = Returned (Some (Error e))
  ∧ calls answer (lambdahttp.CreateRequestVerifier pubKey ctx request) w
    = [CheckTimestamp (Headers request)].
Proof.
  unfold lambdahttp.CreateRequestVerifier, result, calls, trace. cbn.
  destruct (answer (CheckTimestamp (Headers request)) w) as [ts w1]. cbn.
  by intros ->.
Qed.

(** What the five runs say call by call: an undecodable signature is
    answered with the rendering of the decoder's error; a signature that
    does not verify with the rendering of [NotAcceptable]; verification is
    asked for the key of the verifier, the digest of the request and the
    decoded signature; a handler runs only as the next of the chain, and
    only after a verification that succeeded; the verifier panics only
    when the verification or that handler did. *)
Lemma verifier_run_reading pubKey ctx request hash t o :
  verifier_run pubKey ctx request hash t o →
  (∀ e, inr e ∈ decode_answers t → o = Returned (Some (Error e)))
  ∧ (∀ pub h sign, (pub, h, sign, Verified false) ∈ verify_answers t →
       o = Returned (Some (Error (NotAcceptable "invalid signature"))))
  ∧ (∀ pub h sign ok, (pub, h, sign, ok) ∈ verify_answers t →
       pub = pubKey ∧ h = hash ∧ inl sign ∈ decode_answers t)
  ∧ (∀ c, c ∈ projT1 <$> t → runs_handler c = true →
       c = router_Next ctx request
       ∧ ∃ sign, (pubKey, hash, sign, Verified true) ∈ verify_answers t)
  ∧ (∀ v, o = Panicked v →
       (∃ sign, (pubKey, hash, sign, VerifyPanicked v) ∈ verify_answers t)
       ∨ Panicked v ∈ next_outcomes t).
Proof.
  intros Hrun.
  destruct Hrun; cbn; split_and!; intros;
    repeat match goal with
    | H : _ ∈ [] |- _ => by apply elem_of_nil in H
    | H : _ ∈ [_] |- _ => apply list_elem_of_singleton in H
    | H : _ ∈ _ :: _ :: _ |- _ => apply elem_of_cons in H as [H|H]
    end; simplify_eq; try done.
  all: try (split_and!; try done; by apply list_elem_of_singleton).
  - left. eexists. by apply list_elem_of_singleton.
  - split; [done|]. exists sign. by apply list_elem_of_singleton.
  - right. by apply list_elem_of_singleton.
Qed.

(** The error a decoder reported in a run is one the environment gave. *)
Lemma decode_answers_answered {R} (p : M R) w e :
  inr e ∈ decode_answers (trace answer p w) →
  ∃ headers w', (answer (DecodeSign headers) w').1 = inr e.
Proof.
  unfold decode_answers. intros (x & Hin & Hx)%list_elem_of_omap.
  destruct (trace_answered answer p w x Hin) as [w' Hw'].
  destruct x as [c a]. destruct c; cbn in *; simplify_eq. eauto.
Qed.

(** C4, amended.  A run of the verifier (of package lambdahttp for [v2],
    of package lambda otherwise) is one of five, so it always has an
    outcome: the timestamp check reports an error and the answer is its
    rendering; the signature cannot be decoded and the answer is the
    rendering of the decoder's error, a client error; the decoded
    signature does not verify under the key against the recomputed digest
    and the answer is the rendering of [NotAcceptable]; [ecdsa.VerifyASN1]
    panics on the key and the panic is the verifier's; or the signature
    verifies, the next handler is called, and its outcome, a panic
    included, is the verifier's.  No other call runs a handler.  So the
    verifier panics only when the verification panicked on its key or the
    next handler did, and for a key on which verification does not panic
    only in the second case. *)
Theorem CreateRequestVerifier_rejects_or_forwards (v2 : bool) pubKey ctx request w :
  let p :=
    if v2 then lambdahttp.CreateRequestVerifier pubKey ctx request
    else lambda.CreateRequestVerifier pubKey ctx request in
  let hash :=
    if v2 then lambdahttp.getMessageHashForSigning ctx request
    else lambda.getMessageHashForSigning request in
  let t := trace answer p w in
  verifier_run pubKey ctx request hash t (result answer p w)
  ∧ (∀ e, inr e ∈ decode_answers t →
       result answer p w = Returned (Some (Error e))
       ∧ (Error_contract → decode_contract answer → 400 ≤ StatusCode (Error e) < 500))
  ∧ (∀ pub h sign, (pub, h, sign, Verified false) ∈ verify_answers t →
       result answer p w = Returned (Some (Error (NotAcceptable "invalid signature")))
       ∧ (Error_contract → StatusCode (Error (NotAcceptable "invalid signature")) = 406))
  ∧ (∀ pub h sign verified, (pub, h, sign, verified) ∈ verify_answers t →
       pub = pubKey ∧ h = hash ∧ inl sign ∈ decode_answers t)
  ∧ (∀ c, c ∈ calls answer p w → runs_handler c = true →
       c = router_Next ctx request
       ∧ ∃ sign, (pubKey, hash, sign, Verified true) ∈ verify_answers t)
  ∧ (∀ v, result answer p w = Panicked v →
       (∃ sign, (pubKey, hash, sign, VerifyPanicked v) ∈ verify_answers t)
       ∨ Panicked v ∈ next_outcomes t)
  ∧ ((∀ x, x ∈ verify_answers t → ∃ ok, x.2 = Verified ok) →
     ∀ v, result answer p w = Panicked v → Panicked v ∈ next_outcomes t).
Proof.
  intros p hash t.
  assert (Hrun : verifier_run pubKey ctx request hash t (result answer p w)).
  { subst p hash t. destruct v2.
    - apply lambdahttp_CreateRequestVerifier_run.
    - apply lambda_CreateRequestVerifier_run. }
  destruct (verifier_run_reading _ _ _ _ _ _ Hrun) as (Hd & Hf & Hv & Hh & Hp).
  split_and!; [done| | |done|done|done|].
  - intros e He. split; [by apply Hd|].
    intros [Hstatus _] Hcontract. rewrite Hstatus.
    destruct (decode_answers_answered p w e He) as (headers & w' & Hw').
    by eapply Hcontract.
  - intros pub h sign Hin. split; [by eapply Hf|].
    intros [Hstatus _]. by rewrite Hstatus.
  - intros Husable v Hv'. destruct (Hp v Hv') as [[sign Hin]|Hnext]; [|done].
    destruct (Husable _ Hin) as [ok Hok]. done.
Qed.

End Verifier.

Section VerifierTimestamp.
Context `{Externals} {W W' : Type}.
Context (answer : ∀ c : Call Func PublicKey, W → sugar.Ans c * W).
Context (answer' : ∀ c : Call Func PublicKey, W' → sugar.Ans c * W').

(** C5.  When the timestamp check, asked about the headers of the request,
    reports an error [e] (the timestamp is missing, malformed or outside
    the window), the verifier answers with the rendering of [e] and the
    timestamp check is the only call it has made: the signature is not
    decoded.  The response is an Unacceptable one, of status 406, when
    the environment keeps to the contract of the timestamp check and
    [Error] to its own.  Any other run in which the check reports [e],
    whatever the key, the request and its signature header, and whatever
    decoding and verification would answer, ends in the same response. *)
Theorem CreateRequestVerifier_timestamp_first pubKey ctx request w e :
  (answer (CheckTimestamp (Headers request)) w).1 = Some e →
  let p1 := lambda.CreateRequestVerifier pubKey ctx request in
  let p2 := lambdahttp.CreateRequestVerifier pubKey ctx request in
  result answer p1 w = Returned (Some (Error e))
  ∧ calls answer p1 w = [CheckTimestamp (Headers request)]
  ∧ result answer p2 w = Returned (Some (Error e))
  ∧ calls answer p2 w = [CheckTimestamp (Headers request)]
  ∧ (Error_contract → timestamp_contract answer →
     Unacceptable e ∧ StatusCode (Error e) = 406)
  ∧ (∀ pubKey' ctx' request' w',
       (answer' (CheckTimestamp (Headers request')) w').1 = Some e →
       result answer' (lambda.CreateRequestVerifier pubKey' ctx' request') w'
         = result answer p1 w
       ∧ result answer' (lambdahttp.CreateRequestVerifier pubKey' ctx' request') w'
         = result answer p2 w).
Proof.
  intros Hts p1 p2.
  destruct (lambda_verifier_timestamp_rejected answer pubKey ctx request w e Hts)
    as [Hr1 Hc1].
  destruct (lambdahttp_verifier_timestamp_rejected answer pubKey ctx request w e Hts)
    as [Hr2 Hc2].
  split_and!; [done..| |].
  - intros [Hstatus _] Hcontract. pose proof (Hcontract _ _ _ Hts) as He.
    split; [done|]. by rewrite Hstatus.
  - intros pubKey' ctx' request' w' Hts'.
    destruct (lambda_verifier_timestamp_rejected answer' pubKey' ctx' request' w' e Hts')
      as [Hr1' _].
    destruct (lambdahttp_verifier_timestamp_rejected answer' pubKey' ctx' request' w' e Hts')
      as [Hr2' _].
    subst p1 p2. by rewrite Hr1, Hr2, Hr1', Hr2'.
Qed.

End VerifierTimestamp.

(** ** The S3 bucket wrapper *)

Section Bucket.
Import awskit s3observe.
Context {W : Type} (answer : ∀ c : awskit.Call, W → awskit.Ans c * W).

(** [Exists] makes one [HeadObject] call and decides on its answer. *)
Lemma Exists_run s id w :
  ∃ a, head_answers (trace answer (Exists s id) w) = [a]
  ∧ result answer (Exists s id) w
    = match a with
      | inl _ => (true, None)
      | inr err =>
          if bool_decide (ErrorCode (Cause_of err) = Some "NotFound") then (false, None)
          else (false, Some (Cause_of err))
      end.
Proof.
  unfold Exists, getHeadObject, result, trace, head_answers. cbn.
  destruct (answer (HeadObject _) w) as [[out|err] w1]; cbn.
  - by eexists.
  - exists (inr err).
    destruct (ErrorCode (Cause_of err)) as [code|] eqn:Hcode; cbn.
    + repeat case_bool_decide; simplify_eq; done.
    + by rewrite bool_decide_eq_false_2.
Qed.

Lemma ErrorCode_NotFound err :
  ErrorCode err = Some "NotFound" ↔ ∃ message, err = APIError "NotFound" message.
Proof.
  split.
  - destruct err; cbn; intros; simplify_eq; eauto.
  - by intros [message ->].
Qed.

(** C9.  [Exists] answers [(true, nil)] when [HeadObject] succeeds;
    when it fails, [(false, nil)] if the cause of the failure is an API
    error with code "NotFound", and [(false, cause)] with the cause, which
    is not nil, otherwise.  So [(false, nil)] is returned exactly for a
    failure caused by a "NotFound" API error. *)
Theorem Exists_distinguishes_absence s id w :
  let p := Exists s id in
  (∀ out, inl out ∈ head_answers (trace answer p w) → result answer p w = (true, None))
  ∧ (∀ err, inr err ∈ head_answers (trace answer p w) →
       (ErrorCode (Cause_of err) = Some "NotFound" → result answer p w = (false, None))
       ∧ (ErrorCode (Cause_of err) ≠ Some "NotFound" →
          result answer p w = (false, Some (Cause_of err))))
  ∧ (result answer p w = (false, None) ↔
       ∃ err message, inr err ∈ head_answers (trace answer p w)
                      ∧ Cause_of err = APIError "NotFound" message).
Proof.
  intros p. subst p. destruct (Exists_run s id w) as (a & Ht & Hr).
  rewrite Ht, Hr. split_and!.
  - intros out Hin. apply list_elem_of_singleton in Hin. by subst.
  - intros err Hin. apply list_elem_of_singleton in Hin. subst.
    split; intros Hcode.
    + by rewrite bool_decide_eq_true_2.
    + by rewrite bool_decide_eq_false_2.
  - split.
    + destruct a as [out|err]; [done|]. case_bool_decide as Hcode; [|done].
      intros _. apply ErrorCode_NotFound in Hcode as [message Hm].
      exists err, message. split; [by apply list_elem_of_singleton|done].
    + intros (err & message & Hin & Hm). apply list_elem_of_singleton in Hin. subst.
      rewrite bool_decide_eq_true_2; [done|]. apply ErrorCode_NotFound. eauto.
Qed.

Section BatchDeleteRun.
Context (GetMapKeys : gset string → list string).

Lemma BatchDelete_run s ids w output :
  let p := BatchDelete GetMapKeys s ids in
  inl output ∈ delete_objects_answers (trace answer p w) →
  ids ≠ []
  ∧ after_DeleteObjects GetMapKeys ids output (result answer p w) (waits (calls answer p w)).
Proof.
  intros p. subst p. unfold BatchDelete, after_DeleteObjects.
  case_bool_decide as Hids.
  { intros Hin. by apply elem_of_nil in Hin. }
  unfold result, calls, trace, delete_objects_answers, waits. cbn.
  destruct (answer (DeleteObjects _) w) as [[out|err] w1]; cbn.
  2: { intros Hin. by apply list_elem_of_singleton in Hin. }
  assert (Hne : ids ≠ []) by (by destruct ids).
  case_bool_decide as Hdel; cbn.
  { intros Hin. apply list_elem_of_singleton in Hin. simplify_eq.
    by rewrite bool_decide_eq_true_2. }
  destruct (undeleted_check GetMapKeys ids out) as [[err|]|] eqn:Hcheck; cbn.
  - intros Hin. apply list_elem_of_singleton in Hin. simplify_eq.
    by rewrite bool_decide_eq_false_2, Hcheck.
  - destruct (ids !! 0%nat) as [id0|] eqn:Hid0; [|by destruct ids]. cbn.
    destruct (answer (ObjectNotExistsWaiter_Wait _ _) w1) as [[err|] w2]; cbn.
    + intros Hin. apply list_elem_of_singleton in Hin. simplify_eq.
      rewrite bool_decide_eq_false_2, Hcheck by done.
      split; [done|]. exists id0. split_and!; eauto.
    + intros Hin. apply list_elem_of_singleton in Hin. simplify_eq.
      rewrite bool_decide_eq_false_2, Hcheck by done.
      split; [done|]. exists id0. split_and!; eauto.
  - intros Hin. apply list_elem_of_singleton in Hin. simplify_eq.
    by rewrite bool_decide_eq_false_2, Hcheck.
Qed.

End BatchDeleteRun.

Lemma delete_Deleted_keys (idSet : gset string) deleted (keys : list string) :
  Key <$> deleted = Some <$> keys →
  delete_Deleted idSet deleted = Some (idSet ∖ list_to_set keys).
Proof.
  revert idSet keys. induction deleted as [|del rest IH]; intros idSet keys Hkeys.
  - destruct keys; [|done]. cbn. by rewrite difference_empty_L.
  - destruct keys as [|k keys]; [done|]. cbn in Hkeys. simplify_eq. cbn.
    match goal with Hk : Key del = Some k |- _ => rewrite Hk end.
    rewrite (IH _ keys) by done. by rewrite difference_difference_l_L.
Qed.

Lemma Forall_is_Some_fmap {A} (l : list (option A)) :
  Forall is_Some l → ∃ xs, l = Some <$> xs.
Proof.
  induction 1 as [|o l [x ->] _ [xs ->]]; [by exists []|]. by exists (x :: xs).
Qed.

(** Among more distinct ids than keys there is an id that is no key. *)
Lemma exists_undeleted (ids dels : list string) :
  NoDup ids → (length dels < length ids)%nat → ∃ id, id ∈ ids ∧ id ∉ dels.
Proof.
  intros Hnd Hlen.
  destruct (decide (Forall (λ id, id ∈ dels) ids)) as [Hall|Hex].
  - rewrite Forall_forall in Hall.
    pose proof (submseteq_length _ _ (NoDup_submseteq _ _ Hnd Hall)). lia.
  - apply not_Forall_Exists in Hex; [|apply _].
    apply Exists_exists in Hex as (id & Hin & Hnot). eauto.
Qed.

Section BatchDeleteClaims.
Context (GetMapKeys : gset string → list string).

(** C6, amended.  For pairwise distinct ids of which the service confirms
    the deletion of some but not all (M of N, 0 < M < N), [BatchDelete]
    returns the error that lists exactly the N - M ids not confirmed, in
    the order of a map iteration, and does not wait. *)
Theorem BatchDelete_reports_undeleted s ids dels output w :
  (∀ X, GetMapKeys X ≡ₚ elements X) →
  NoDup ids → NoDup dels → dels ⊆ ids →
  (0 < length dels < length ids)%nat →
  deleted_keys output = Some <$> dels →
  inl output ∈ delete_objects_answers (trace answer (BatchDelete GetMapKeys s ids) w) →
  ∃ keys,
    result answer (BatchDelete GetMapKeys s ids) w
    = Returns (Some (Errorf_keys "some ids cannot be deleted: %v" keys))
    ∧ keys ≡ₚ filter (λ id, id ∉ dels) ids
    ∧ length keys = (length ids - length dels)%nat
    ∧ waits (calls answer (BatchDelete GetMapKeys s ids) w) = [].
Proof.
  intros Hkeys Hids Hdels Hsub Hlen Hout Hin.
  destruct (BatchDelete_run GetMapKeys s ids w output Hin) as [_ Hafter].
  unfold after_DeleteObjects, undeleted_check, deleted_keys in *.
  assert (Hlength : length (Deleted output) = length dels).
  { by rewrite <-(length_fmap Key), Hout, length_fmap. }
  rewrite bool_decide_eq_false_2 in Hafter by lia.
  rewrite bool_decide_eq_true_2 in Hafter by lia.
  rewrite (delete_Deleted_keys _ _ dels) in Hafter by done.
  set (idSet := list_to_set ids ∖ list_to_set dels : gset string) in *.
  assert (Hmem : ∀ id, id ∈ idSet ↔ id ∈ ids ∧ id ∉ dels).
  { intros id. unfold idSet. by rewrite elem_of_difference, !elem_of_list_to_set. }
  destruct (exists_undeleted ids dels) as (id & Hid1 & Hid2); [done|lia|].
  rewrite bool_decide_eq_true_2 in Hafter.
  2: { intros Hsize. apply size_empty_iff in Hsize.
       apply (not_elem_of_empty (C := gset string) id). rewrite <-Hsize. by apply Hmem. }
  destruct Hafter as [Hres Hwaits].
  assert (Hperm : GetMapKeys idSet ≡ₚ filter (λ id, id ∉ dels) ids).
  { rewrite Hkeys. apply NoDup_Permutation.
    - apply NoDup_elements.
    - by apply NoDup_filter.
    - intros x. rewrite elem_of_elements, Hmem, list_elem_of_filter. tauto. }
  exists (GetMapKeys idSet). split_and!; [done..| |done].
  rewrite Hperm.
  assert (Hin_dels : filter (λ id, id ∈ dels) ids ≡ₚ dels).
  { apply NoDup_Permutation; [by apply NoDup_filter|done|].
    intros x. rewrite list_elem_of_filter. split; [tauto|]. intros Hx. split; [done|].
    by apply Hsub. }
  pose proof (filter_app_complement (λ id, id ∈ dels) ids) as Hsplit.
  apply Permutation_length in Hsplit. rewrite length_app, Hin_dels in Hsplit. lia.
Qed.

(** C10.  After a [DeleteObjects] call that succeeded, every wait of
    [BatchDelete] is for [ids[0]] and bounded by five seconds; when the
    service reports no deleted object [BatchDelete] returns nil and does
    not wait; when it confirms every id it waits once, for [ids[0]]. *)
Theorem BatchDelete_waits_for_first_id s ids output w :
  let p := BatchDelete GetMapKeys s ids in
  inl output ∈ delete_objects_answers (trace answer p w) →
  (∀ key d, (key, d) ∈ waits (calls answer p w) →
     ids !! 0%nat = Some key ∧ d = Second * 5)
  ∧ (Deleted output = [] →
     result answer p w = Returns None ∧ waits (calls answer p w) = [])
  ∧ (Forall is_Some (deleted_keys output) →
     (∀ id, id ∈ ids → Some id ∈ deleted_keys output) →
     ∃ id0, ids !! 0%nat = Some id0 ∧ waits (calls answer p w) = [(id0, Second * 5)]).
Proof.
  intros p Hin. subst p.
  destruct (BatchDelete_run GetMapKeys s ids w output Hin) as [Hne Hafter].
  unfold after_DeleteObjects in Hafter. split_and!.
  - intros key d Hwait. case_bool_decide.
    + destruct Hafter as [_ Hw]. rewrite Hw in Hwait. by apply elem_of_nil in Hwait.
    + destruct (undeleted_check GetMapKeys ids output) as [[err|]|].
      * destruct Hafter as [_ Hw]. rewrite Hw in Hwait. by apply elem_of_nil in Hwait.
      * destruct Hafter as (id0 & Hid0 & Hw & _). rewrite Hw in Hwait.
        apply list_elem_of_singleton in Hwait. by simplify_eq.
      * destruct Hafter as [_ Hw]. rewrite Hw in Hwait. by apply elem_of_nil in Hwait.
  - intros Hnone. rewrite Hnone in Hafter. by rewrite bool_decide_eq_true_2 in Hafter.
  - intros Hsome Hall. unfold deleted_keys in *.
    destruct (Forall_is_Some_fmap _ Hsome) as [keys Hkeys].
    assert (Hcover : ∀ id, id ∈ ids → id ∈ keys).
    { intros id Hid. specialize (Hall id Hid). rewrite Hkeys in Hall.
      apply list_elem_of_fmap in Hall as (k & ? & ?). by simplify_eq. }
    rewrite bool_decide_eq_false_2 in Hafter.
    2: { destruct ids as [|id ids]; [done|].
         specialize (Hall id (list_elem_of_here _ _)).
         destruct (Deleted output); [by apply elem_of_nil in Hall|done]. }
    assert (Hcheck : undeleted_check GetMapKeys ids output = Returns None).
    { unfold undeleted_check. case_bool_decide; [|done].
      rewrite (delete_Deleted_keys _ _ keys) by done.
      rewrite bool_decide_eq_false_2; [done|].
      intros Hsize. apply Hsize, size_empty_iff. intros id.
      rewrite elem_of_difference, !elem_of_list_to_set.
      split; [|intros Hempty; by apply not_elem_of_empty in Hempty].
      intros [Hid Hnot]. destruct Hnot. by apply Hcover. }
    rewrite Hcheck in Hafter. destruct Hafter as (id0 & Hid0 & Hw & _). eauto.
Qed.

End BatchDeleteClaims.

End Bucket.

(** ** The claims on the demo deployment *)

(** The four runs of the verifier of package lambda in which the
    verification answers. *)
Example CreateRequestVerifier_demo :
  let request := demo.get "/items/42" demo.signed_headers in
  let verifier := lambda.CreateRequestVerifier (H := demo.externals) (Some "key") demo.background request in
  let next := Returned (Some demo.ok200) in
  let stale := NotAcceptable "timestamp out of range" in
  let malformed := errorx_Error 400 "malformed signature" in
  result (demo.env (demo.behaviour next (Some stale) (inr malformed) false)) verifier ()
    = Returned (Some {| StatusCode := 406; RespHeaders := None;
                        RespBody := "timestamp out of range" |})
  ∧ result (demo.env (demo.behaviour next None (inr malformed) false)) verifier ()
    = Returned (Some {| StatusCode := 400; RespHeaders := None;
                        RespBody := "malformed signature" |})
  ∧ result (demo.env (demo.behaviour next None (inl [x01]) false)) verifier ()
    = Returned (Some {| StatusCode := 406; RespHeaders := None;
                        RespBody := "invalid signature" |})
  ∧ result (demo.env (demo.behaviour next None (inl [x01]) true)) verifier () = next.
Proof. vm_compute. done. Qed.

(** C4 as stated fails for a nil key, on which the verification panics,
    and when the next handler panics: the panic leaves the verifier. *)
Lemma CreateRequestVerifier_panics :
  let request := demo.get "/items/42" demo.signed_headers in
  let returns := samples.with_ecdsa (Returned (Some demo.ok200)) true in
  let panics := samples.with_ecdsa (Panicked (any_value "boom")) true in
  result (demo.env returns)
    (lambda.CreateRequestVerifier (H := demo.externals) None demo.background request) ()
    = Panicked nil_dereference
  ∧ result (demo.env returns)
      (lambdahttp.CreateRequestVerifier (H := demo.externals) None demo.background request) ()
    = Panicked nil_dereference
  ∧ result (demo.env panics)
      (lambda.CreateRequestVerifier (H := demo.externals) (Some "key") demo.background request) ()
    = Panicked (any_value "boom")
  ∧ result (demo.env panics)
      (lambdahttp.CreateRequestVerifier (H := demo.externals) (Some "key") demo.background request) ()
    = Panicked (any_value "boom").
Proof. vm_compute. done. Qed.

(** With a key the verification accepts: a next handler that panics
    gives the verifier's panic; an undecodable signature is answered with
    the 400 of the decoder's error; a signature that does not verify is
    answered with 406. *)
Lemma CreateRequestVerifier_rejects_or_forwards_witness :
  let request := demo.get "/items/42" demo.signed_headers in
  let next := Returned (Some demo.ok200) in
  let malformed := errorx_Error 400 "malformed signature" in
  let panics := demo.env (samples.with_ecdsa (Panicked (any_value "boom")) true) in
  let undecodable := demo.env (demo.behaviour next None (inr malformed) false) in
  let forged := demo.env (demo.behaviour next None (inl [x01]) false) in
  Panicked (any_value "boom")
    ∈ next_outcomes (H := demo.externals)
        (trace panics (lambda.CreateRequestVerifier (H := demo.externals) (Some "key")
                         demo.background request) ())
  ∧ (result undecodable
       (lambdahttp.CreateRequestVerifier (H := demo.externals) (Some "key")
          demo.background request) ()
     = Returned (Some (Error (Externals := demo.externals) malformed))
     ∧ 400 ≤ StatusCode (Error (Externals := demo.externals) malformed) < 500)
  ∧ (result forged
       (lambda.CreateRequestVerifier (H := demo.externals) (Some "key")
          demo.background request) ()
     = Returned (Some (Error (Externals := demo.externals)
                         (NotAcceptable "invalid signature")))
     ∧ StatusCode (Error (Externals := demo.externals)
                     (NotAcceptable "invalid signature")) = 406).
Proof.
  intros request next malformed panics undecodable forged.
  split; [|split].
  - destruct (CreateRequestVerifier_rejects_or_forwards (H := demo.externals) panics
                false (Some "key") demo.background request ())
      as (_ & _ & _ & _ & _ & _ & Husable).
    apply Husable.
    + intros x Hx. vm_compute in Hx. apply list_elem_of_singleton in Hx. subst x.
      by exists true.
    + vm_compute. reflexivity.
  - destruct (CreateRequestVerifier_rejects_or_forwards (H := demo.externals) undecodable
                true (Some "key") demo.background request ())
      as (_ & Hdecode & _).
    destruct (Hdecode malformed) as [Hresult Hstatus].
    { vm_compute. apply list_elem_of_here. }
    split; [exact Hresult|]. apply Hstatus; [exact demo_Error_contract|].
    intros headers w err Herr. cbn in Herr. injection Herr as <-. cbn. lia.
  - destruct (CreateRequestVerifier_rejects_or_forwards (H := demo.externals) forged
                false (Some "key") demo.background request ())
      as (_ & _ & Hforged & _).
    destruct (Hforged (Some "key")
                (lambda.getMessageHashForSigning (H := demo.externals) request) [x01])
      as [Hresult Hstatus].
    { vm_compute. apply list_elem_of_here. }
    split; [exact Hresult|]. apply Hstatus. exact demo_Error_contract.
Defined.

(** A stale timestamp with an undecodable signature, and with a signature
    that would verify: the same 406, and no call but the check. *)
Lemma CreateRequestVerifier_timestamp_first_witness :
  let request := demo.get "/items/42" demo.signed_headers in
  let unsigned := demo.get "/items/42" {[ "X-Timestamp" := "1" ]} in
  let stale := NotAcceptable "timestamp out of range" in
  let rejected := {| StatusCode := 406; RespHeaders := None;
                     RespBody := "timestamp out of range" |} in
  let env := demo.env (demo.behaviour (Returned None) (Some stale)
                         (inr (errorx_Error 400 "malformed signature")) false) in
  let env' := demo.env (demo.behaviour (Returned (Some demo.ok200)) (Some stale)
                          (inl [x01]) true) in
  result env (lambda.CreateRequestVerifier (H := demo.externals) (Some "key")
                demo.background unsigned) ()
    = Returned (Some rejected)
  ∧ calls env (lambda.CreateRequestVerifier (H := demo.externals) (Some "key")
                 demo.background unsigned) ()
    = [CheckTimestamp (Headers unsigned)]
  ∧ result env (lambdahttp.CreateRequestVerifier (H := demo.externals) (Some "key")
                  demo.background unsigned) ()
    = Returned (Some rejected)
  ∧ calls env (lambdahttp.CreateRequestVerifier (H := demo.externals) (Some "key")
                 demo.background unsigned) ()
    = [CheckTimestamp (Headers unsigned)]
  ∧ StatusCode (Error (Externals := demo.externals) stale) = 406
  ∧ result env' (lambda.CreateRequestVerifier (H := demo.externals) (Some "other")
                   demo.background request) ()
    = Returned (Some rejected)
  ∧ result env' (lambdahttp.CreateRequestVerifier (H := demo.externals) (Some "other")
                   demo.background request) ()
    = Returned (Some rejected).
Proof.
  intros request unsigned stale rejected env env'.
  destruct (CreateRequestVerifier_timestamp_first (H := demo.externals) env env'
              (Some "key") demo.background unsigned () stale eq_refl)
    as (Hr1 & Hc1 & Hr2 & Hc2 & Hclass & Hsame).
  destruct (Hsame (Some "other") demo.background request () eq_refl) as [Hs1 Hs2].
  destruct Hclass as [_ H406].
  { exact demo_Error_contract. }
  { intros headers w err Herr. cbn in Herr. injection Herr as <-. reflexivity. }
  split_and!.
  - exact Hr1.
  - exact Hc1.
  - exact Hr2.
  - exact Hc2.
  - exact H406.
  - rewrite Hs1. exact Hr1.
  - rewrite Hs2. exact Hr2.
Defined.

(** C6 as stated fails when the service confirms no deletion at all:
    with M = 0 of N = 2 ids confirmed, [BatchDelete] returns nil. *)
Lemma BatchDelete_none_deleted_returns_nil :
  let ids := ["a"; "b"] in
  let output := demo.deleted [] in
  let env := s3observe.stateless (demo.s3 demo.found (inl output)) in
  let p := awskit.BatchDelete demo.GetMapKeys demo.store ids in
  ids ≠ []
  ∧ s3observe.delete_objects_answers (trace env p ()) = [inl output]
  ∧ (length (awskit.Deleted output) < length ids)%nat
  ∧ result env p () = awskit.Returns None.
Proof.
  intros ids output env p.
  split_and!; [done | vm_compute; reflexivity | cbn; lia | vm_compute; reflexivity].
Qed.

Lemma BatchDelete_reports_undeleted_witness :
  let ids := ["a"; "b"; "c"] in
  let output := demo.deleted ["b"] in
  let env := s3observe.stateless (demo.s3 demo.found (inl output)) in
  let p := awskit.BatchDelete demo.GetMapKeys demo.store ids in
  ∃ keys,
    result env p () = awskit.Returns (Some (awskit.Errorf_keys "some ids cannot be deleted: %v" keys))
    ∧ keys ≡ₚ ["a"; "c"]
    ∧ length keys = 2%nat
    ∧ s3observe.waits (calls env p ()) = [].
Proof.
  intros ids output env p.
  apply (BatchDelete_reports_undeleted env demo.GetMapKeys demo.store ids ["b"] output ()).
  - intros X. reflexivity.
  - apply (bool_decide_unpack _). vm_compute. reflexivity.
  - apply (bool_decide_unpack _). vm_compute. reflexivity.
  - apply (bool_decide_unpack _). vm_compute. reflexivity.
  - vm_compute. lia.
  - reflexivity.
  - vm_compute. constructor.
Defined.

Lemma Exists_distinguishes_absence_witness :
  let missing := awskit.Wrap "operation error S3: HeadObject"
                   (awskit.APIError "NotFound" "Not Found") in
  let refused := awskit.Wrap "operation error S3: HeadObject"
                   (awskit.OtherError "connection refused") in
  let p := awskit.Exists demo.store "logo.png" in
  result (s3observe.stateless (demo.s3 demo.found (inl (demo.deleted [])))) p () = (true, None)
  ∧ result (s3observe.stateless (demo.s3 (inr missing) (inl (demo.deleted [])))) p ()
    = (false, None)
  ∧ result (s3observe.stateless (demo.s3 (inr refused) (inl (demo.deleted [])))) p ()
    = (false, Some (awskit.OtherError "connection refused")).
Proof.
  intros missing refused p. split_and!.
  - destruct (Exists_distinguishes_absence
                (s3observe.stateless (demo.s3 demo.found (inl (demo.deleted []))))
                demo.store "logo.png" ()) as (Hfound & _ & _).
    eapply Hfound. vm_compute. constructor.
  - destruct (Exists_distinguishes_absence
                (s3observe.stateless (demo.s3 (inr missing) (inl (demo.deleted []))))
                demo.store "logo.png" ()) as (_ & Hfailed & _).
    apply (Hfailed missing); [vm_compute; constructor|reflexivity].
  - destruct (Exists_distinguishes_absence
                (s3observe.stateless (demo.s3 (inr refused) (inl (demo.deleted []))))
                demo.store "logo.png" ()) as (_ & Hfailed & _).
    apply (Hfailed refused); [vm_compute; constructor|discriminate].
Defined.

Lemma BatchDelete_waits_for_first_id_witness :
  let ids := ["a"; "b"] in
  let all := s3observe.stateless (demo.s3 demo.found (inl (demo.deleted ["a"; "b"]))) in
  let none := s3observe.stateless (demo.s3 demo.found (inl (demo.deleted []))) in
  let p := awskit.BatchDelete demo.GetMapKeys demo.store ids in
  (∃ id0, ids !! 0%nat = Some id0
          ∧ s3observe.waits (calls all p ()) = [(id0, 5000000000)])
  ∧ result none p () = awskit.Returns None
  ∧ s3observe.waits (calls none p ()) = [].
Proof.
  intros ids all none p.
  destruct (BatchDelete_waits_for_first_id all demo.GetMapKeys demo.store ids
              (demo.deleted ["a"; "b"]) ()) as (_ & _ & Hall); [vm_compute; constructor|].
  destruct (BatchDelete_waits_for_first_id none demo.GetMapKeys demo.store ids
              (demo.deleted []) ()) as (_ & Hnone & _); [vm_compute; constructor|].
  split; [|by apply Hnone].
  apply Hall.
  - apply (bool_decide_unpack _). vm_compute. reflexivity.
  - intros id Hid. apply list_elem_of_In in Hid. apply list_elem_of_In.
    cbn in *. intuition (subst; auto).
Defined.

(** * Further properties *)

(** ** The dispatcher, call by call *)

Section DispatchCalls.
Context `{Externals} {W : Type}.
Context (answer : ∀ c : Call Func PublicKey, W → sugar.Ans c * W).

(** The log call the deferred function of package lambda makes. *)
Lemma lambda_Handle_deferred_calls id o w :
  calls answer (lambda.Handle_deferred id o) w
  = match o with
    | Panicked (any_value s) => [Log Error_level "caught a panic" [("error", s)]]
    | Panicked any_nil | Returned None => []
    | Returned (Some resp) =>
        [if bool_decide (StatusCode resp < 400) then
           Log Info "succeeded" [("status_code", pretty (StatusCode resp))]
         else if bool_decide (String.length (RespBody resp) < 1024)%nat then
           Log Error_level "failed"
             [("status_code", pretty (StatusCode resp)); ("body", RespBody resp)]
         else Log Error_level "failed" [("status_code", pretty (StatusCode resp))]]
    end.
Proof.
  unfold lambda.Handle_deferred, calls, trace.
  destruct o as [[resp|]|[|s]]; cbn; repeat case_bool_decide; cbn; done.
Qed.

Lemma lambdahttp_Handle_deferred_calls ctx o w :
  calls answer (lambdahttp.Handle_deferred ctx o) w
  = match o with
    | Panicked (any_value s) => [Log Error_level "Panic" [("error", s)]]
    | Panicked any_nil | Returned None => []
    | Returned (Some resp) =>
        [if bool_decide (StatusCode resp < 400) then
           Log Info "End" [("status_code", pretty (StatusCode resp))]
         else if bool_decide (String.length (RespBody resp) < 1024)%nat then
           Log Error_level "End"
             [("status_code", pretty (StatusCode resp)); ("body", RespBody resp)]
         else Log Error_level "End" [("status_code", pretty (StatusCode resp))]]
    end.
Proof.
  unfold lambdahttp.Handle_deferred, calls, trace.
  destruct o as [[resp|]|[|s]]; cbn; repeat case_bool_decide; cbn; done.
Qed.

(** [Handle] on a route: the calls it makes, around the one handler call. *)
Lemma lambda_Handle_matched r ctx request w endpoint :
  Match r (Method (HTTP request)) (RawPath request) = Some endpoint →
  let p := lambda.Handle r ctx request in
  let handler := Endpoint_Handler endpoint in
  let ctx' := WithNextHandler (BuildContext ctx request) (Handler_Next handler) in
  ∃ w1 w2,
    let o := (answer (Invoke (Handler_Handler handler) ctx' request) w1).1 in
    handler_outcomes (trace answer p w) = [o]
    ∧ calls answer p w
      = Log Info "received"
          [("header", ToString (Headers request)); ("path", RawPath request);
           ("query", RawQueryString request); ("method", Method (HTTP request));
           ("user_agent", UserAgent (HTTP request));
           ("source_ip", SourceIP (HTTP request))]
        :: Invoke (Handler_Handler handler) ctx' request
        :: calls answer
             (lambda.Handle_deferred (GetTraceID (BuildContext ctx request))
                (substituted (Error (NotImplemented "no response from handler")) o))
             w2.
Proof.
  intros Hmatch p handler ctx'. subst p handler ctx'.
  unfold lambda.Handle, sugar.M. rewrite Hmatch.
  rewrite !trace_bind, !calls_bind. do 2 eexists. split.
  - match goal with |- context [trace answer (lambda.Handle_deferred ?i ?o) ?w] =>
      destruct (lambda_Handle_deferred_run answer i o w) as (_ & Ht & _) end.
    unfold handler_outcomes in *. rewrite !omap_app, Ht. reflexivity.
  - reflexivity.
Qed.

Lemma lambdahttp_Handle_matched r ctx request w endpoint :
  Match r (Method (HTTP request)) (RawPath request) = Some endpoint →
  let p := lambdahttp.Handle r ctx request in
  let handler := Endpoint_Handler endpoint in
  let ctx' := WithNextHandler (BuildContext ctx request) (Handler_Next handler) in
  ∃ w1 w2,
    let o := (answer (Invoke (Handler_Handler handler) ctx' request) w1).1 in
    handler_outcomes (trace answer p w) = [o]
    ∧ calls answer p w
      = Log Info "Start"
          [("header", ToString (Headers request)); ("path", RawPath request);
           ("query", RawQueryString request); ("method", Method (HTTP request));
           ("user_agent", UserAgent (HTTP request));
           ("source_ip", SourceIP (HTTP request))]
        :: Invoke (Handler_Handler handler) ctx' request
        :: calls answer
             (lambdahttp.Handle_deferred ctx'
                (substituted (Error (NotImplemented "no response from handler")) o))
             w2.
Proof.
  intros Hmatch p handler ctx'. subst p handler ctx'.
  unfold lambdahttp.Handle, sugar.M. rewrite Hmatch.
  rewrite !trace_bind, !calls_bind. do 2 eexists. split.
  - match goal with |- context [trace answer (lambdahttp.Handle_deferred ?i ?o) ?w] =>
      destruct (lambdahttp_Handle_deferred_run answer i o w) as (_ & Ht & _) end.
    unfold handler_outcomes in *. rewrite !omap_app, Ht. reflexivity.
  - reflexivity.
Qed.

End DispatchCalls.

Lemma filter_runs_handler_nil `{Externals} (l : list (Call Func PublicKey)) :
  Forall (λ c, runs_handler c = false) l →
  filter (λ c, runs_handler c = true) l = [].
Proof.
  induction 1 as [|c l Hc _ IH]; [done|].
  rewrite filter_cons_False; [done|]. by rewrite Hc.
Qed.

Section DispatchMore.
Context `{Externals} {W : Type}.
Context (answer : ∀ c : Call Func PublicKey, W → sugar.Ans c * W).

(** X1.  A response a handler returns goes out with its status and body
    unchanged and with its headers (an empty map for nil) in which the
    trace id of the request is stored under the trace-id key, replacing
    whatever the handler put there and leaving every other header. *)
Theorem Handle_passes_response_through r ctx request w resp :
  let id := GetTraceID (BuildContext ctx request) in
  let headers := <[KeyTraceID := id]> (default ∅ (RespHeaders resp)) in
  let sent :=
    {| StatusCode := StatusCode resp;
       RespHeaders := Some headers;
       RespBody := RespBody resp |} in
  (Returned (Some resp) ∈ handler_outcomes (trace answer (lambda.Handle r ctx request) w) →
   result answer (lambda.Handle r ctx request) w = Returned (Some sent))
  ∧ (Returned (Some resp)
       ∈ handler_outcomes (trace answer (lambdahttp.Handle r ctx request) w) →
   result answer (lambdahttp.Handle r ctx request) w = Returned (Some sent))
  ∧ headers !! KeyTraceID = Some id
  ∧ ∀ k, k ≠ KeyTraceID → headers !! k = default ∅ (RespHeaders resp) !! k.
Proof.
  intros id headers sent. split_and!.
  - intros Ho. by rewrite (lambda_Handle_outcome answer r ctx request w _ Ho).
  - intros Ho. by rewrite (lambdahttp_Handle_outcome answer r ctx request w _ Ho).
  - apply lookup_insert_eq.
  - intros k Hk. by apply lookup_insert_ne.
Qed.

(** X3.  On a route [Handle] runs one handler, once: the first function of
    the chain, on the request as received, with a context that carries the
    trace id of the request and the rest of the chain as next handler. *)
Theorem Handle_invokes_first_handler_once r ctx request w endpoint :
  Match r (Method (HTTP request)) (RawPath request) = Some endpoint →
  let handler := Endpoint_Handler endpoint in
  let ctx' :=
    {| TraceID := TraceID (BuildContext ctx request);
       NextHandler := Handler_Next handler |} in
  filter (λ c, runs_handler c = true) (calls answer (lambda.Handle r ctx request) w)
    = [Invoke (Handler_Handler handler) ctx' request]
  ∧ filter (λ c, runs_handler c = true) (calls answer (lambdahttp.Handle r ctx request) w)
    = [Invoke (Handler_Handler handler) ctx' request].
Proof.
  intros Hmatch handler ctx'. split.
  - destruct (lambda_Handle_matched answer r ctx request w endpoint Hmatch)
      as (w1 & w2 & _ & ->).
    rewrite filter_cons_False, filter_cons_True by done. f_equal.
    apply filter_runs_handler_nil, lambda_Handle_deferred_run.
  - destruct (lambdahttp_Handle_matched answer r ctx request w endpoint Hmatch)
      as (w1 & w2 & _ & ->).
    rewrite filter_cons_False, filter_cons_True by done. f_equal.
    apply filter_runs_handler_nil, lambdahttp_Handle_deferred_run.
Qed.

(** X4.  The last call of a request whose handler returned a response is
    a log call: at info level when the status is below 400, at error
    level otherwise, and then with the body when the body is shorter than
    1024 bytes and without it from 1024 bytes on. *)
Theorem Handle_logs_outcome r ctx request w resp :
  let status := ("status_code", pretty (StatusCode resp)) in
  let body := ("body", RespBody resp) in
  (Returned (Some resp) ∈ handler_outcomes (trace answer (lambda.Handle r ctx request) w) →
   let logged := last (calls answer (lambda.Handle r ctx request) w) in
   (StatusCode resp < 400 → logged = Some (Log Info "succeeded" [status]))
   ∧ (400 ≤ StatusCode resp → (String.length (RespBody resp) < 1024)%nat →
      logged = Some (Log Error_level "failed" [status; body]))
   ∧ (400 ≤ StatusCode resp → (1024 ≤ String.length (RespBody resp))%nat →
      logged = Some (Log Error_level "failed" [status])))
  ∧ (Returned (Some resp)
       ∈ handler_outcomes (trace answer (lambdahttp.Handle r ctx request) w) →
   let logged := last (calls answer (lambdahttp.Handle r ctx request) w) in
   (StatusCode resp < 400 → logged = Some (Log Info "End" [status]))
   ∧ (400 ≤ StatusCode resp → (String.length (RespBody resp) < 1024)%nat →
      logged = Some (Log Error_level "End" [status; body]))
   ∧ (400 ≤ StatusCode resp → (1024 ≤ String.length (RespBody resp))%nat →
      logged = Some (Log Error_level "End" [status]))).
Proof.
  intros status body. split; intros Ho logged; subst logged.
  - pose proof (lambda_Handle_run answer r ctx request w) as Hrun. cbn zeta in Hrun.
    destruct (Match _ _ _) as [endpoint|] eqn:Hmatch.
    2: { destruct Hrun as (_ & Ht & _). rewrite Ht in Ho. by apply elem_of_nil in Ho. }
    destruct (lambda_Handle_matched answer r ctx request w endpoint Hmatch)
      as (w1 & w2 & Ht & ->).
    cbn zeta in Ht. rewrite Ht in Ho. apply list_elem_of_singleton in Ho.
    rewrite <-Ho, lambda_Handle_deferred_calls. cbn.
    split_and!; intros; repeat case_bool_decide; (done || lia).
  - pose proof (lambdahttp_Handle_run answer r ctx request w) as Hrun. cbn zeta in Hrun.
    destruct (Match _ _ _) as [endpoint|] eqn:Hmatch.
    2: { destruct Hrun as (_ & Ht & _). rewrite Ht in Ho. by apply elem_of_nil in Ho. }
    destruct (lambdahttp_Handle_matched answer r ctx request w endpoint Hmatch)
      as (w1 & w2 & Ht & ->).
    cbn zeta in Ht. rewrite Ht in Ho. apply list_elem_of_singleton in Ho.
    rewrite <-Ho, lambdahttp_Handle_deferred_calls. cbn.
    split_and!; intros; repeat case_bool_decide; (done || lia).
Qed.

End DispatchMore.

(** ** A verifier in front of a handler *)

Section Chained.
Context `{Externals}.
Context (b : Behaviour) (is_verifier : Func → bool) (pubKey : PublicKey).

(** What the verifier of package lambda gives when [b] answers its calls. *)
Lemma lambda_verifier_stateless ctx request :
  result (stateless b) (lambda.CreateRequestVerifier pubKey ctx request) ()
  = match on_CheckTimestamp b (Headers request) with
    | Some e => Returned (Some (Error e))
    | None =>
        match on_DecodeSign b (Headers request) with
        | inr e => Returned (Some (Error e))
        | inl sign =>
            match on_VerifyASN1 b pubKey (lambda.getMessageHashForSigning request) sign with
            | VerifyPanicked v => Panicked v
            | Verified true => on_Next b ctx request
            | Verified false =>
                Returned (Some (Error (NotAcceptable "invalid signature")))
            end
        end
    end.
Proof.
  unfold lambda.CreateRequestVerifier, lambda.Next, result. cbn.
  destruct (on_CheckTimestamp b _); [done|]. cbn.
  destruct (on_DecodeSign b _); [|done]. cbn.
  by destruct (on_VerifyASN1 b _ _ _) as [[|]|v].
Qed.

Lemma lambdahttp_verifier_stateless ctx request :
  result (stateless b) (lambdahttp.CreateRequestVerifier pubKey ctx request) ()
  = match on_CheckTimestamp b (Headers request) with
    | Some e => Returned (Some (Error e))
    | None =>
        match on_DecodeSign b (Headers request) with
        | inr e => Returned (Some (Error e))
        | inl sign =>
            match on_VerifyASN1 b pubKey (lambdahttp.getMessageHashForSigning ctx request) sign with
            | VerifyPanicked v => Panicked v
            | Verified true => on_Next b ctx request
            | Verified false =>
                Returned (Some (Error (NotAcceptable "invalid signature")))
            end
        end
    end.
Proof.
  unfold lambdahttp.CreateRequestVerifier, lambdahttp.Next, result. cbn.
  destruct (on_CheckTimestamp b _); [done|]. cbn.
  destruct (on_DecodeSign b _); [|done]. cbn.
  by destruct (on_VerifyASN1 b _ _ _) as [[|]|v].
Qed.

(** X5.  A route whose first handler is the request verifier of package
    lambda: a request the verifier rejects (timestamp, undecodable or
    invalid signature) is answered with the rendering of the rejection,
    completed with the trace header; a request whose signature verifies
    is answered with the response of the next handler, which is called
    with the rest of the chain, completed in the same way. *)
Theorem Handle_runs_verifier_first r ctx request endpoint :
  Match r (Method (HTTP request)) (RawPath request) = Some endpoint →
  is_verifier (Handler_Handler (Endpoint_Handler endpoint)) = true →
  let id := GetTraceID (BuildContext ctx request) in
  let ctx' :=
    WithNextHandler (BuildContext ctx request) (Handler_Next (Endpoint_Handler endpoint)) in
  let env :=
    stateless (chain.with_verifier b is_verifier (lambda.CreateRequestVerifier pubKey)) in
  let res := result env (lambda.Handle r ctx request) () in
  let headers := Headers request in
  (∀ e, on_CheckTimestamp b headers = Some e →
        res = Returned (Some (completed (Error e) id)))
  ∧ (on_CheckTimestamp b headers = None →
     (∀ e, on_DecodeSign b headers = inr e →
           res = Returned (Some (completed (Error e) id)))
     ∧ (∀ sign, on_DecodeSign b headers = inl sign →
          (on_VerifyASN1 b pubKey (lambda.getMessageHashForSigning request) sign
             = Verified false →
           res = Returned (Some (completed (Error (NotAcceptable "invalid signature")) id)))
          ∧ (on_VerifyASN1 b pubKey (lambda.getMessageHashForSigning request) sign
               = Verified true →
             ∀ resp, on_Next b ctx' request = Returned (Some resp) →
                     res = Returned (Some (completed resp id))))).
Proof.
  intros Hmatch Hverifier id ctx' env res headers.
  assert (Hres : res = deferred_outcome
            (substituted (Error (NotImplemented "no response from handler"))
               (result (stateless b) (lambda.CreateRequestVerifier pubKey ctx' request) ()))
            id).
  { subst res. apply lambda_Handle_outcome.
    destruct (lambda_Handle_matched env r ctx request () endpoint Hmatch)
      as (w1 & w2 & Ht & _).
    cbn zeta in Ht. rewrite Ht. cbn. rewrite Hverifier. apply list_elem_of_here. }
  rewrite Hres, lambda_verifier_stateless. fold headers.
  split; [by intros e ->|]. intros ->. split; [by intros e ->|].
  intros sign ->. split; [by intros ->|]. intros -> resp Hnext.
  fold ctx'. by rewrite Hnext.
Qed.

(** The same for package lambdahttp. *)
Lemma lambdahttp_Handle_runs_verifier_first r ctx request endpoint :
  Match r (Method (HTTP request)) (RawPath request) = Some endpoint →
  is_verifier (Handler_Handler (Endpoint_Handler endpoint)) = true →
  let id := GetTraceID (BuildContext ctx request) in
  let ctx' :=
    WithNextHandler (BuildContext ctx request) (Handler_Next (Endpoint_Handler endpoint)) in
  let env :=
    stateless (chain.with_verifier b is_verifier (lambdahttp.CreateRequestVerifier pubKey)) in
  result env (lambdahttp.Handle r ctx request) ()
  = deferred_outcome
      (substituted (Error (NotImplemented "no response from handler"))
         (result (stateless b) (lambdahttp.CreateRequestVerifier pubKey ctx' request) ()))
      id.
Proof.
  intros Hmatch Hverifier id ctx' env.
  apply lambdahttp_Handle_outcome.
  destruct (lambdahttp_Handle_matched env r ctx request () endpoint Hmatch)
    as (w1 & w2 & Ht & _).
  cbn zeta in Ht. rewrite Ht. cbn. rewrite Hverifier. apply list_elem_of_here.
Qed.

End Chained.

(** ** What a digest covers *)

Section Coverage.
Context `{Externals}.

Lemma lambdahttp_digest_of_fields ctx req :
  lambdahttp.getMessageHashForSigning ctx req
  = vec_to_list (md5_Sum (canonical_string (lambdahttp_signing_fields req))).
Proof.
  unfold lambdahttp.getMessageHashForSigning, WriteString, Bytes, Buffer_zero.
  cbn [canonical_string lambdahttp_signing_fields foldr].
  by rewrite append_empty_r, !append_assoc.
Qed.

Lemma lambda_digest_of_fields req :
  lambda.getMessageHashForSigning req
  = vec_to_list (sha256_Sum256 (canonical_string (lambda_signing_fields req))).
Proof.
  unfold lambda.getMessageHashForSigning, WriteString, Bytes, Buffer_zero.
  cbn [canonical_string lambda_signing_fields foldr].
  by rewrite append_empty_r, !append_assoc.
Qed.

(** X6.  A digest depends on the signed fields through their
    concatenation only: two requests whose signed fields differ but
    concatenate to the same string (a byte moved from the end of one field
    to the start of the next) have the same digest. *)
Theorem getMessageHashForSigning_ignores_field_boundaries :
  (∀ ctx1 ctx2 req1 req2,
     canonical_string (lambdahttp_signing_fields req1)
     = canonical_string (lambdahttp_signing_fields req2) →
     lambdahttp.getMessageHashForSigning ctx1 req1
     = lambdahttp.getMessageHashForSigning ctx2 req2)
  ∧ (∀ req1 req2,
     canonical_string (lambda_signing_fields req1)
     = canonical_string (lambda_signing_fields req2) →
     lambda.getMessageHashForSigning req1 = lambda.getMessageHashForSigning req2).
Proof.
  split.
  - intros ctx1 ctx2 req1 req2 Heq. by rewrite !lambdahttp_digest_of_fields, Heq.
  - intros req1 req2 Heq. by rewrite !lambda_digest_of_fields, Heq.
Qed.

End Coverage.

(** ** More of the S3 bucket wrapper *)

Section BucketMore.
Import awskit s3observe s3reading.
Context {W : Type} (answer : ∀ c : awskit.Call, W → awskit.Ans c * W).
Context (GetMapKeys : gset string → list string).

(** The runs of [BatchDelete] on ids that are not empty. *)
Lemma BatchDelete_cases s ids w :
  ids ≠ [] →
  let p := BatchDelete GetMapKeys s ids in
  ∃ a,
    delete_objects_answers (trace answer p w) = [a]
    ∧ match a with
      | inr err =>
          result answer p w = Returns (Some (Wrap "s3.DeleteObjects: " err))
          ∧ calls answer p w = [DeleteObjects_of s ids]
          ∧ wait_answers (trace answer p w) = []
      | inl output =>
          if bool_decide (length (Deleted output) = 0%nat) then
            result answer p w = Returns None
            ∧ calls answer p w = [DeleteObjects_of s ids]
            ∧ wait_answers (trace answer p w) = []
          else
            match undeleted_check GetMapKeys ids output with
            | Returns None =>
                ∃ id0 wa,
                  ids !! 0%nat = Some id0
                  ∧ calls answer p w = [DeleteObjects_of s ids; Wait_for s id0]
                  ∧ wait_answers (trace answer p w) = [wa]
                  ∧ result answer p w
                    = Returns (Wrap "s3.ObjectNotExistsWaiter.Wait: " <$> wa)
            | res =>
                result answer p w = res
                ∧ calls answer p w = [DeleteObjects_of s ids]
                ∧ wait_answers (trace answer p w) = []
            end
      end.
Proof.
  intros Hne p. subst p. unfold BatchDelete, DeleteObjects_of, Wait_for.
  rewrite bool_decide_eq_false_2 by (by destruct ids).
  unfold result, calls, trace, delete_objects_answers, wait_answers. cbn.
  destruct (answer (DeleteObjects _) w) as [[out|err] w1]; cbn.
  2: { by eexists (inr err). }
  exists (inl out). case_bool_decide as Hdel; cbn; [done|].
  destruct (undeleted_check GetMapKeys ids out) as [[err|]|] eqn:Hcheck; cbn; [done| |done].
  destruct (ids !! 0%nat) as [id0|] eqn:Hid0; [|by destruct ids]. cbn.
  destruct (answer (ObjectNotExistsWaiter_Wait _ _) w1) as [[err|] w2]; cbn.
  - split; [done|]. by exists id0, (Some err).
  - split; [done|]. by exists id0, None.
Qed.

Lemma BatchDelete_no_DeleteObjects s w :
  delete_objects_answers (trace answer (BatchDelete GetMapKeys s []) w) = [].
Proof. done. Qed.

(** X7.  [BatchDelete] calls the service at most once and waits at most
    once: it makes no call at all for an empty list; otherwise its first
    call is one [DeleteObjects] for the bucket with the ids as keys, in
    their order, and the only call that can follow is a five-second wait
    for the absence of the first id. *)
Theorem BatchDelete_call_protocol s ids w :
  let p := BatchDelete GetMapKeys s ids in
  (ids = [] → result answer p w = Returns None ∧ calls answer p w = [])
  ∧ (ids ≠ [] →
     calls answer p w = [DeleteObjects_of s ids]
     ∨ ∃ id0, ids !! 0%nat = Some id0
              ∧ calls answer p w = [DeleteObjects_of s ids; Wait_for s id0]).
Proof.
  intros p. split.
  - by intros ->.
  - intros Hne. destruct (BatchDelete_cases s ids w Hne) as (a & _ & Ha).
    destruct a as [output|err]; [|left; apply Ha].
    case_bool_decide; [left; apply Ha|].
    destruct (undeleted_check GetMapKeys ids output) as [[err|]|];
      [left; apply Ha| |left; apply Ha].
    destruct Ha as (id0 & wa & Hid0 & Hc & _). right. eauto.
Qed.

(** X8.  When [DeleteObjects] fails, [BatchDelete] returns its error
    wrapped under "s3.DeleteObjects: " and does not wait; the cause of
    the returned error is the cause of the service's error. *)
Theorem BatchDelete_service_failure s ids w err :
  let p := BatchDelete GetMapKeys s ids in
  inr err ∈ delete_objects_answers (trace answer p w) →
  result answer p w = Returns (Some (Wrap "s3.DeleteObjects: " err))
  ∧ waits (calls answer p w) = []
  ∧ Cause (Some (Wrap "s3.DeleteObjects: " err)) = Cause (Some err).
Proof.
  intros p Hin. destruct ids as [|id ids].
  { subst p. rewrite BatchDelete_no_DeleteObjects in Hin. by apply elem_of_nil in Hin. }
  destruct (BatchDelete_cases s (id :: ids) w) as (a & Ht & Ha); [done|].
  fold p in Ht, Ha. rewrite Ht in Hin. apply list_elem_of_singleton in Hin. subst a.
  destruct Ha as (-> & -> & _). done.
Qed.

(** X9.  When a wait is made, its answer decides: [BatchDelete] returns
    nil when the wait succeeded and the error of the wait, wrapped under
    "s3.ObjectNotExistsWaiter.Wait: ", when it failed or timed out. *)
Theorem BatchDelete_wait_decides s ids w wa :
  let p := BatchDelete GetMapKeys s ids in
  wa ∈ wait_answers (trace answer p w) →
  result answer p w = Returns (Wrap "s3.ObjectNotExistsWaiter.Wait: " <$> wa).
Proof.
  intros p Hin. destruct ids as [|id ids].
  { by apply elem_of_nil in Hin. }
  destruct (BatchDelete_cases s (id :: ids) w) as (a & _ & Ha); [done|].
  fold p in Ha. destruct a as [output|err].
  2: { destruct Ha as (_ & _ & Hw). rewrite Hw in Hin. by apply elem_of_nil in Hin. }
  case_bool_decide.
  { destruct Ha as (_ & _ & Hw). rewrite Hw in Hin. by apply elem_of_nil in Hin. }
  destruct (undeleted_check GetMapKeys (id :: ids) output) as [[err|]|].
  - destruct Ha as (_ & _ & Hw). rewrite Hw in Hin. by apply elem_of_nil in Hin.
  - destruct Ha as (id0 & wa' & _ & _ & Hw & Hr). rewrite Hw in Hin.
    apply list_elem_of_singleton in Hin. by subst.
  - destruct Ha as (_ & _ & Hw). rewrite Hw in Hin. by apply elem_of_nil in Hin.
Qed.

End BucketMore.


Lemma delete_Deleted_Some (idSet idSet' : gset string) deleted :
  awskit.delete_Deleted idSet deleted = Some idSet' →
  ∀ id, id ∈ idSet' ↔ id ∈ idSet ∧ Some id ∉ awskit.Key <$> deleted.
Proof.
  revert idSet. induction deleted as [|del rest IH]; intros idSet Hd id; cbn in *.
  - simplify_eq. split; [|tauto]. intros Hin. split; [done|]. apply not_elem_of_nil.
  - destruct (awskit.Key del) as [k|] eqn:Hk; [|done].
    rewrite (IH _ Hd id), elem_of_difference, elem_of_singleton, not_elem_of_cons.
    split.
    + intros [[Hin Hne] Hrest]. split_and!; [done| |done]. congruence.
    + intros (Hin & Hne & Hrest). split_and!; [done| |done]. congruence.
Qed.

Section BucketChecks.
Import awskit s3observe s3reading.
Context {W : Type} (answer : ∀ c : awskit.Call, W → awskit.Ans c * W).
Context (GetMapKeys : gset string → list string).


(** X11.  When the service reports as many deleted objects as there are
    ids, their keys are not compared with the ids: whatever the keys are,
    [BatchDelete] waits for the first id and returns nil or the error of
    the wait, never the error that lists ids. *)
Theorem BatchDelete_equal_count_skips_check s ids output w :
  let p := BatchDelete GetMapKeys s ids in
  inl output ∈ delete_objects_answers (trace answer p w) →
  length (Deleted output) = length ids →
  ∃ id0, ids !! 0%nat = Some id0
         ∧ calls answer p w = [DeleteObjects_of s ids; Wait_for s id0]
         ∧ (result answer p w = Returns None
            ∨ ∃ err, result answer p w
                     = Returns (Some (Wrap "s3.ObjectNotExistsWaiter.Wait: " err))).
Proof.
  intros p Hin Hlen. destruct ids as [|id ids].
  { by apply elem_of_nil in Hin. }
  destruct (BatchDelete_cases answer GetMapKeys s (id :: ids) w) as (a & Ht & Ha); [done|].
  fold p in Ht, Ha. rewrite Ht in Hin. apply list_elem_of_singleton in Hin. subst a.
  rewrite bool_decide_eq_false_2 in Ha by (by rewrite Hlen).
  unfold undeleted_check in Ha. rewrite bool_decide_eq_false_2 in Ha by tauto.
  destruct Ha as (id0 & wa & Hid0 & Hc & _ & Hr). exists id0. split_and!; [done..|].
  destruct wa as [err|]; [right; by exists err|by left].
Qed.

(** X12.  Whenever [BatchDelete] returns the error that lists ids, the
    list has no duplicates, is not empty, and holds exactly the ids that
    are not among the keys the service reported as deleted (also when the
    ids repeat). *)
Theorem BatchDelete_error_lists_undeleted s ids w format keys :
  (∀ X, GetMapKeys X ≡ₚ elements X) →
  let p := BatchDelete GetMapKeys s ids in
  result answer p w = Returns (Some (Errorf_keys format keys)) →
  format = "some ids cannot be deleted: %v"
  ∧ keys ≠ [] ∧ NoDup keys
  ∧ ∃ output,
      inl output ∈ delete_objects_answers (trace answer p w)
      ∧ ∀ id, id ∈ keys ↔ id ∈ ids ∧ Some id ∉ deleted_keys output.
Proof.
  intros Hkeys p Hres. destruct ids as [|id ids]; [done|].
  destruct (BatchDelete_cases answer GetMapKeys s (id :: ids) w) as (a & Ht & Ha); [done|].
  fold p in Ht, Ha. rewrite Ht. destruct a as [output|err].
  2: { destruct Ha as (Hr & _). congruence. }
  case_bool_decide; [destruct Ha as (Hr & _); congruence|].
  unfold undeleted_check in Ha. case_bool_decide.
  2: { destruct Ha as (id0 & [err|] & _ & _ & _ & Hr); cbn in Hr; congruence. }
  destruct (delete_Deleted _ _) as [idSet|] eqn:Hd; [|destruct Ha as (Hr & _); congruence].
  case_bool_decide as Hsize.
  2: { destruct Ha as (id0 & [err|] & _ & _ & _ & Hr); cbn in Hr; congruence. }
  destruct Ha as (Hr & _). rewrite Hr in Hres. simplify_eq.
  split_and!; [done| | |].
  - intros Hnil. apply Hsize. unfold size, set_size. cbn.
    by rewrite <-(Permutation_length (Hkeys idSet)), Hnil.
  - rewrite Hkeys. apply NoDup_elements.
  - exists output. split; [apply list_elem_of_here|]. intros id'.
    rewrite Hkeys, elem_of_elements, (delete_Deleted_Some _ _ _ Hd), elem_of_list_to_set.
    done.
Qed.

End BucketChecks.

Lemma Cause_of_idempotent err : awskit.Cause_of (awskit.Cause_of err) = awskit.Cause_of err.
Proof. induction err; cbn; done. Qed.

Section BucketObjects.
Import awskit s3observe s3reading.
Context {W : Type} (answer : ∀ c : awskit.Call, W → awskit.Ans c * W).

(** X13.  [Delete] asks for the deletion of the object first.  When that
    fails it returns the error wrapped under "s3.DeleteObject: " and does
    not wait; when it succeeds it waits, once and for five seconds, for
    the absence of the same object, and returns nil exactly when the wait
    succeeded, the wrapped error of the wait otherwise. *)
Theorem Delete_waits_after_deletion s id w :
  let p := Delete s id in
  (∀ err, Some err ∈ delete_object_answers (trace answer p w) →
     result answer p w = Some (Wrap "s3.DeleteObject: " err)
     ∧ calls answer p w = [DeleteObject (bucket s) id])
  ∧ (None ∈ delete_object_answers (trace answer p w) →
     calls answer p w = [DeleteObject (bucket s) id; Wait_for s id]
     ∧ ∃ wa, wait_answers (trace answer p w) = [wa]
             ∧ result answer p w = (Wrap "s3.ObjectNotExistsWaiter.Wait: " <$> wa)).
Proof.
  intros p. subst p.
  unfold Delete, Wait_for, result, calls, trace, delete_object_answers, wait_answers. cbn.
  destruct (answer (DeleteObject _ _) w) as [[err|] w1]; cbn.
  - split.
    + intros err' Hin. apply list_elem_of_singleton in Hin. by simplify_eq.
    + intros Hin. by apply list_elem_of_singleton in Hin.
  - destruct (answer (ObjectNotExistsWaiter_Wait _ _) w1) as [[err|] w2]; cbn.
    + split.
      * intros err' Hin. by apply list_elem_of_singleton in Hin.
      * intros _. split; [done|]. by exists (Some err).
    + split.
      * intros err' Hin. by apply list_elem_of_singleton in Hin.
      * intros _. split; [done|]. by exists None.
Qed.

(** X14.  [Exists] and [GetMetadata] ask the service the same question,
    one [HeadObject] for the bucket and the key, and agree on the answer:
    [Exists] says true exactly when [GetMetadata] returns no error.
    [GetMetadata] then returns the metadata map of the answer, nil for an
    object that has none; it returns the error of the service as it is,
    not wrapped and with nil metadata. *)
Theorem Exists_agrees_with_GetMetadata s id w :
  let head := HeadObject {| HeadObject_Bucket := bucket s; HeadObject_Key := id |} in
  calls answer (Exists s id) w = [head]
  ∧ calls answer (GetMetadata s id) w = [head]
  ∧ (result answer (Exists s id) w = (true, None)
     ↔ (result answer (GetMetadata s id) w).2 = None)
  ∧ (∀ out, inl out ∈ head_answers (trace answer (GetMetadata s id) w) →
            result answer (GetMetadata s id) w = (Metadata out, None))
  ∧ (∀ err, inr err ∈ head_answers (trace answer (GetMetadata s id) w) →
            result answer (GetMetadata s id) w = (None, Some err)).
Proof.
  intros head. subst head.
  unfold Exists, GetMetadata, getHeadObject, result, calls, trace, head_answers. cbn.
  destruct (answer (HeadObject _) w) as [[out|err] w1]; cbn.
  - split_and!; [done..| |].
    + intros out' Hin. apply list_elem_of_singleton in Hin. by simplify_eq.
    + intros err Hin. by apply list_elem_of_singleton in Hin.
  - destruct (ErrorCode (Cause_of err)) as [code|]; [case_bool_decide|]; cbn.
    all: split_and!; [done..| | |].
    all: try (split; [done|by intros ?]).
    all: try (intros out Hin; by apply list_elem_of_singleton in Hin).
    all: intros err' Hin; apply list_elem_of_singleton in Hin; by simplify_eq.
Qed.

(** X15.  [Exists] never says true together with an error, and an error
    it returns is the cause itself: it wraps nothing and is not a
    "NotFound" API error. *)
Theorem Exists_error_is_cause s id w ok err :
  result answer (Exists s id) w = (ok, Some err) →
  ok = false ∧ Cause_of err = err ∧ ErrorCode err ≠ Some "NotFound".
Proof.
  destruct (Exists_run answer s id w) as (a & _ & ->).
  destruct a as [out|err']; [done|].
  case_bool_decide as Hcode; [done|]. intros Heq. simplify_eq.
  split_and!; [done|apply Cause_of_idempotent|done].
Qed.

End BucketObjects.

Section PutGet.
Import awskit objects objreading.
Context {ReadCloser W : Type}.
Context (answer : ∀ c : objects.Call ReadCloser, W → objects.Ans c * W).
Context (DetectMIMEType : list byte → string).

(** X16.  [Put] on a bucket made by [NewS3Bucket] makes one call:
    [PutObject] for the bucket and the key, with the content as body, the
    ACL "private", the cache control "public, max-age=14400", the content
    type detected from the content and the metadata as given.  It returns
    nil when the service accepts and the error of the service, wrapped
    under "s3.PutObject: ", when it does not; it does not wait. *)
Theorem Put_after_NewS3Bucket name id content metadata w :
  let p := Put DetectMIMEType (NewS3Bucket name) id content metadata in
  let input :=
    {| PutObject_Bucket := name;
       PutObject_Key := id;
       PutObject_Body := content;
       PutObject_ACL := "private";
       PutObject_CacheControl := "public, max-age=14400";
       PutObject_ContentType := DetectMIMEType content;
       PutObject_Metadata := metadata |} in
  calls answer p w = [PutObject input]
  ∧ ∃ a, put_answers (trace answer p w) = [a]
         ∧ result answer p w = (Wrap "s3.PutObject: " <$> a).
Proof.
  intros p input. subst p input.
  unfold Put, NewS3Bucket, result, calls, trace, put_answers. cbn.
  destruct (answer (PutObject _) w) as [[err|] w1]; cbn.
  - split; [done|]. by exists (Some err).
  - split; [done|]. by exists None.
Qed.

(** The runs of [Get]. *)
Lemma Get_cases s id w :
  let p := Get s id in
  let input := {| GetObject_Bucket := bucket s; GetObject_Key := id |} in
  ∃ a, get_answers (trace answer p w) = [a]
  ∧ match a with
    | inr err =>
        result answer p w = (None, Some (Wrap "s3.GetObject: " err))
        ∧ calls answer p w = [GetObject input]
        ∧ read_answers (trace answer p w) = []
    | inl output =>
        let body := GetObject_Body output in
        ∃ read, read_answers (trace answer p w) = [read]
        ∧ match read.2 with
          | Some err =>
              result answer p w = (None, Some (Wrap "io.ReadAll: " err))
              ∧ calls answer p w = [GetObject input; ReadAll body]
          | None =>
              result answer p w = (Some read.1, None)
              ∧ calls answer p w = [GetObject input; ReadAll body; Close body]
          end
    end.
Proof.
  intros p input. subst p input.
  unfold Get, result, calls, trace, get_answers, read_answers. cbn.
  destruct (answer (GetObject _) w) as [[output|err] w1]; cbn.
  2: { by exists (inr err). }
  exists (inl output). split; [|].
  - destruct (answer (ReadAll _) w1) as [[data [err|]] w2]; cbn; done.
  - destruct (answer (ReadAll _) w1) as [[data [err|]] w2]; cbn.
    + by exists (data, Some err).
    + by exists (data, None).
Qed.

(** X17.  [Get] returns the content exactly when both the request and the
    reading of the body succeeded, and then all the bytes read, whatever
    closing the body answers.  A failed request gives nil content and the
    error wrapped under "s3.GetObject: "; a failed read gives nil content,
    the bytes read so far being dropped, and the error wrapped under
    "io.ReadAll: ". *)
Theorem Get_content_or_error s id w :
  let p := Get s id in
  (∀ err, inr err ∈ get_answers (trace answer p w) →
     result answer p w = (None, Some (Wrap "s3.GetObject: " err)))
  ∧ (∀ data err, (data, Some err) ∈ read_answers (trace answer p w) →
     result answer p w = (None, Some (Wrap "io.ReadAll: " err)))
  ∧ (∀ data, (data, None) ∈ read_answers (trace answer p w) →
     result answer p w = (Some data, None))
  ∧ (∀ data, result answer p w = (Some data, None) →
     (data, None) ∈ read_answers (trace answer p w)).
Proof.
  intros p. destruct (Get_cases s id w) as (a & Ht & Ha). fold p in Ht, Ha.
  rewrite Ht. destruct a as [output|err].
  - destruct Ha as ([data rerr] & Hr & Ha). rewrite Hr. cbn [fst snd] in Ha.
    destruct rerr as [err|]; destruct Ha as (-> & _); split_and!.
    all: try (intros; by match goal with
                         | H : _ ∈ [_] |- _ => apply list_elem_of_singleton in H
                         end).
    all: try (intros; match goal with
                      | H : _ ∈ [_] |- _ =>
                          apply list_elem_of_singleton in H; by simplify_eq
                      end).
    + done.
    + intros data' Heq. simplify_eq. apply list_elem_of_here.
  - destruct Ha as (-> & _ & ->). split_and!.
    + intros err' Hin. apply list_elem_of_singleton in Hin. by simplify_eq.
    + intros data err' Hin. by apply elem_of_nil in Hin.
    + intros data Hin. by apply elem_of_nil in Hin.
    + done.
Qed.

(** X18.  [Get] closes the body exactly when reading it succeeded: after
    a read that failed the body it was given is left open; a request that
    failed gave no body to read or close. *)
Theorem Get_closes_body_after_successful_read s id w :
  let p := Get s id in
  let input := {| GetObject_Bucket := bucket s; GetObject_Key := id |} in
  (∀ err, inr err ∈ get_answers (trace answer p w) → calls answer p w = [GetObject input])
  ∧ (∀ output, inl output ∈ get_answers (trace answer p w) →
     let body := GetObject_Body output in
     (∀ data err, (data, Some err) ∈ read_answers (trace answer p w) →
        calls answer p w = [GetObject input; ReadAll body])
     ∧ (∀ data, (data, None) ∈ read_answers (trace answer p w) →
        calls answer p w = [GetObject input; ReadAll body; Close body])).
Proof.
  intros p input. destruct (Get_cases s id w) as (a & Ht & Ha).
  fold p input in Ht, Ha. rewrite Ht. split.
  - intros err Hin. apply list_elem_of_singleton in Hin. subst a. apply Ha.
  - intros output Hin body. apply list_elem_of_singleton in Hin. subst a. fold body in Ha.
    destruct Ha as ([data rerr] & Hr & Ha). rewrite Hr. cbn [fst snd] in Ha.
    destruct rerr as [err|]; destruct Ha as (_ & ->); split.
    + done.
    + intros data' Hin. apply list_elem_of_singleton in Hin. by simplify_eq.
    + intros data' err' Hin. apply list_elem_of_singleton in Hin. by simplify_eq.
    + done.
Qed.

End PutGet.

(** ** The further properties on the demo deployment *)

(** A handler that sets a content type and a trace id of its own: the
    content type stays, the trace id is that of the request. *)
Lemma Handle_passes_response_through_witness :
  let env := demo.env (demo.handlers (Returned (Some (samples.sized 200 5)))) in
  let request := demo.get "/items/42" demo.signed_headers in
  let sent :=
    {| StatusCode := 200;
       RespHeaders := Some {[ "X-Trace-Id" := "trace-1"; "Content-Type" := "text/plain" ]};
       RespBody := "aaaaa" |} in
  result env (lambda.Handle (H := demo.externals) demo.routes demo.background request) ()
    = Returned (Some sent)
  ∧ result env (lambdahttp.Handle (H := demo.externals) demo.routes demo.background request) ()
    = Returned (Some sent).
Proof.
  intros env request sent.
  destruct (Handle_passes_response_through (H := demo.externals) env
              demo.routes demo.background request () (samples.sized 200 5))
    as (H1 & H2 & _ & _).
  split.
  - rewrite H1; [|vm_compute; constructor]. vm_compute. reflexivity.
  - rewrite H2; [|vm_compute; constructor]. vm_compute. reflexivity.
Defined.

Lemma Handle_invokes_first_handler_once_witness :
  let env := demo.env (demo.handlers (Returned None)) in
  let request := demo.get "/items/42" demo.signed_headers in
  let ctx' : Context string :=
    {| TraceID := "trace-1"; NextHandler := Some (mkHandler "getItem" []) |} in
  filter (λ c, runs_handler (H := demo.externals) c = true)
    (calls env (lambda.Handle (H := demo.externals) demo.routes demo.background request) ())
  = [Invoke "verifier" ctx' request].
Proof.
  intros env request ctx'.
  destruct (Handle_invokes_first_handler_once (H := demo.externals) env
              demo.routes demo.background request ()
              {| Endpoint_Handler := mkHandler "verifier" ["getItem"] |}) as [H1 _].
  - vm_compute. reflexivity.
  - exact H1.
Defined.

(** A 500 with a body of 1023 bytes is logged with its body, one of 1024
    bytes without. *)
Lemma Handle_logs_outcome_witness :
  let request := demo.get "/items/42" demo.signed_headers in
  let short := samples.sized 500 1023 in
  let long := samples.sized 500 1024 in
  last (calls (demo.env (demo.handlers (Returned (Some short))))
          (lambda.Handle (H := demo.externals) demo.routes demo.background request) ())
    = Some (Log Error_level "failed" [("status_code", "500"); ("body", RespBody short)])
  ∧ last (calls (demo.env (demo.handlers (Returned (Some long))))
            (lambda.Handle (H := demo.externals) demo.routes demo.background request) ())
    = Some (Log Error_level "failed" [("status_code", "500")])
  ∧ last (calls (demo.env (demo.handlers (Returned (Some demo.ok200))))
            (lambdahttp.Handle (H := demo.externals) demo.routes demo.background request) ())
    = Some (Log Info "End" [("status_code", "200")]).
Proof.
  intros request short long. split_and!.
  - destruct (Handle_logs_outcome (H := demo.externals)
                (demo.env (demo.handlers (Returned (Some short))))
                demo.routes demo.background request () short) as [H1 _].
    destruct H1 as (_ & Hshort & _); [vm_compute; constructor|].
    apply Hshort; vm_compute; [discriminate|lia].
  - destruct (Handle_logs_outcome (H := demo.externals)
                (demo.env (demo.handlers (Returned (Some long))))
                demo.routes demo.background request () long) as [H1 _].
    destruct H1 as (_ & _ & Hlong); [vm_compute; constructor|].
    apply Hlong; vm_compute; [discriminate|lia].
  - destruct (Handle_logs_outcome (H := demo.externals)
                (demo.env (demo.handlers (Returned (Some demo.ok200))))
                demo.routes demo.background request () demo.ok200) as [_ H2].
    destruct H2 as (Hok & _ & _); [vm_compute; constructor|].
    apply Hok. vm_compute. reflexivity.
Defined.

(** The demo route, whose first handler is the verifier: an invalid
    signature is answered 406 and a valid one with the item, both with the
    trace header. *)
Lemma Handle_runs_verifier_first_witness :
  let request := demo.get "/items/42" demo.signed_headers in
  let next := Returned (Some demo.ok200) in
  let run valid :=
    result
      (stateless (H := demo.externals)
         (chain.with_verifier (H := demo.externals)
            (demo.behaviour next None (inl [x01]) valid) samples.is_verifier
            (lambda.CreateRequestVerifier (H := demo.externals) (Some "key"))))
      (lambda.Handle (H := demo.externals) demo.routes demo.background request) () in
  run false
    = Returned (Some {| StatusCode := 406;
                        RespHeaders := Some {[ "X-Trace-Id" := "trace-1" ]};
                        RespBody := "invalid signature" |})
  ∧ run true
    = Returned (Some {| StatusCode := 200;
                        RespHeaders := Some {[ "X-Trace-Id" := "trace-1" ]};
                        RespBody := "item 42" |}).
Proof.
  intros request next run. subst run. split.
  - destruct (Handle_runs_verifier_first (H := demo.externals)
                (demo.behaviour next None (inl [x01]) false) samples.is_verifier (Some "key")
                demo.routes demo.background request
                {| Endpoint_Handler := mkHandler "verifier" ["getItem"] |})
      as (_ & Hfresh); [vm_compute; reflexivity..|].
    destruct Hfresh as (_ & Hdecoded); [reflexivity|].
    destruct (Hdecoded [x01]) as (Hinvalid & _); [reflexivity|].
    rewrite Hinvalid; [|reflexivity]. vm_compute. reflexivity.
  - destruct (Handle_runs_verifier_first (H := demo.externals)
                (demo.behaviour next None (inl [x01]) true) samples.is_verifier (Some "key")
                demo.routes demo.background request
                {| Endpoint_Handler := mkHandler "verifier" ["getItem"] |})
      as (_ & Hfresh); [vm_compute; reflexivity..|].
    destruct Hfresh as (_ & Hdecoded); [reflexivity|].
    destruct (Hdecoded [x01]) as (_ & Hvalid); [reflexivity|].
    rewrite (Hvalid eq_refl demo.ok200); [|reflexivity]. vm_compute. reflexivity.
Defined.

(** [GET /items/42] and a request with method "GE" and path "T/items/42"
    have the same digests. *)
Lemma getMessageHashForSigning_ignores_field_boundaries_witness :
  let req1 := samples.sent_as "GET" "/items/42" in
  let req2 := samples.sent_as "GE" "T/items/42" in
  lambda_signing_fields (H := demo.externals) req1
    ≠ lambda_signing_fields (H := demo.externals) req2
  ∧ lambdahttp.getMessageHashForSigning (H := demo.externals) demo.background req1
    = lambdahttp.getMessageHashForSigning (H := demo.externals) demo.background req2
  ∧ lambda.getMessageHashForSigning (H := demo.externals) req1
    = lambda.getMessageHashForSigning (H := demo.externals) req2.
Proof.
  intros req1 req2.
  destruct (getMessageHashForSigning_ignores_field_boundaries (H := demo.externals))
    as [Hhttp Hlambda].
  split_and!.
  - vm_compute. discriminate.
  - apply Hhttp. vm_compute. reflexivity.
  - apply Hlambda. vm_compute. reflexivity.
Defined.

Lemma BatchDelete_call_protocol_witness :
  let env := s3observe.stateless
               (samples.s3 demo.found None (inl (demo.deleted ["a"; "b"])) None) in
  calls env (awskit.BatchDelete demo.GetMapKeys demo.store []) () = []
  ∧ calls env (awskit.BatchDelete demo.GetMapKeys demo.store ["a"; "b"]) ()
    = [s3reading.DeleteObjects_of demo.store ["a"; "b"]; s3reading.Wait_for demo.store "a"].
Proof.
  intros env.
  destruct (BatchDelete_call_protocol env demo.GetMapKeys demo.store [] ()) as [Hempty _].
  destruct (BatchDelete_call_protocol env demo.GetMapKeys demo.store ["a"; "b"] ())
    as [_ Hcalls].
  split; [by apply Hempty|].
  destruct Hcalls as [Hone|(id0 & Hid0 & Htwo)]; [done| |].
  - vm_compute in Hone. discriminate Hone.
  - cbn in Hid0. injection Hid0 as <-. exact Htwo.
Defined.

Lemma BatchDelete_service_failure_witness :
  let env := s3observe.stateless (samples.s3 demo.found None (inr samples.throttled) None) in
  let p := awskit.BatchDelete demo.GetMapKeys demo.store ["a"; "b"] in
  result env p () = awskit.Returns (Some (awskit.Wrap "s3.DeleteObjects: " samples.throttled))
  ∧ s3observe.waits (calls env p ()) = []
  ∧ awskit.Cause (Some (awskit.Wrap "s3.DeleteObjects: " samples.throttled))
    = Some (awskit.APIError "SlowDown" "Please reduce your request rate").
Proof.
  intros env p.
  destruct (BatchDelete_service_failure env demo.GetMapKeys demo.store ["a"; "b"] ()
              samples.throttled) as (Hr & Hw & Hc); [vm_compute; constructor|].
  split_and!; [exact Hr|exact Hw|]. rewrite Hc. reflexivity.
Defined.

Lemma BatchDelete_wait_decides_witness :
  let timeout := awskit.OtherError "exceeded max wait time for ObjectNotExists waiter" in
  let env := s3observe.stateless
               (samples.s3 demo.found None (inl (demo.deleted ["a"; "b"])) (Some timeout)) in
  result env (awskit.BatchDelete demo.GetMapKeys demo.store ["a"; "b"]) ()
  = awskit.Returns (Some (awskit.Wrap "s3.ObjectNotExistsWaiter.Wait: " timeout)).
Proof.
  intros timeout env.
  apply (BatchDelete_wait_decides env demo.GetMapKeys demo.store ["a"; "b"] () (Some timeout)).
  vm_compute. constructor.
Defined.


(** Two ids and two reported deletions, of another object. *)
Lemma BatchDelete_equal_count_skips_check_witness :
  let output := demo.deleted ["c"; "c"] in
  let env := s3observe.stateless (samples.s3 demo.found None (inl output) None) in
  let p := awskit.BatchDelete demo.GetMapKeys demo.store ["a"; "b"] in
  result env p () = awskit.Returns None
  ∧ calls env p ()
    = [s3reading.DeleteObjects_of demo.store ["a"; "b"]; s3reading.Wait_for demo.store "a"].
Proof.
  intros output env p.
  destruct (BatchDelete_equal_count_skips_check env demo.GetMapKeys demo.store
              ["a"; "b"] output ()) as (id0 & Hid0 & Hc & Hr).
  - vm_compute. constructor.
  - reflexivity.
  - cbn in Hid0. injection Hid0 as <-. split; [|exact Hc].
    destruct Hr as [Hr|[err Hr]]; [exact Hr|]. vm_compute in Hr. discriminate Hr.
Defined.

(** The id "a" twice and "b": with "a" deleted, the error lists "b". *)
Lemma BatchDelete_error_lists_undeleted_witness :
  let output := demo.deleted ["a"] in
  let env := s3observe.stateless (samples.s3 demo.found None (inl output) None) in
  let p := awskit.BatchDelete demo.GetMapKeys demo.store ["a"; "a"; "b"] in
  result env p ()
    = awskit.Returns (Some (awskit.Errorf_keys "some ids cannot be deleted: %v" ["b"]))
  ∧ NoDup ["b"].
Proof.
  intros output env p.
  assert (Hres : result env p ()
    = awskit.Returns (Some (awskit.Errorf_keys "some ids cannot be deleted: %v" ["b"])))
    by (vm_compute; reflexivity).
  split; [exact Hres|].
  destruct (BatchDelete_error_lists_undeleted env demo.GetMapKeys demo.store
              ["a"; "a"; "b"] () _ ["b"] (λ X, reflexivity _) Hres) as (_ & _ & Hnodup & _).
  exact Hnodup.
Defined.

Lemma Delete_waits_after_deletion_witness :
  let denied := awskit.APIError "AccessDenied" "Access Denied" in
  let p := awskit.Delete demo.store "logo.png" in
  result (s3observe.stateless
            (samples.s3 demo.found (Some denied) (inl (demo.deleted [])) None)) p ()
    = Some (awskit.Wrap "s3.DeleteObject: " denied)
  ∧ calls (s3observe.stateless
             (samples.s3 demo.found None (inl (demo.deleted [])) None)) p ()
    = [awskit.DeleteObject "assets" "logo.png"; s3reading.Wait_for demo.store "logo.png"].
Proof.
  intros denied p. split.
  - destruct (Delete_waits_after_deletion
                (s3observe.stateless
                   (samples.s3 demo.found (Some denied) (inl (demo.deleted [])) None))
                demo.store "logo.png" ()) as [Hfail _].
    apply Hfail. vm_compute. constructor.
  - destruct (Delete_waits_after_deletion
                (s3observe.stateless
                   (samples.s3 demo.found None (inl (demo.deleted [])) None))
                demo.store "logo.png" ()) as [_ Hok].
    apply Hok. vm_compute. constructor.
Defined.

(** An object without metadata exists and has the nil metadata map. *)
Lemma Exists_agrees_with_GetMetadata_witness :
  let bare : awskit.HeadObjectOutput + awskit.error := inl {| awskit.Metadata := None |} in
  let env := s3observe.stateless (samples.s3 bare None (inl (demo.deleted [])) None) in
  let env' := s3observe.stateless
                (samples.s3 (inr samples.throttled) None (inl (demo.deleted [])) None) in
  result env (awskit.Exists demo.store "logo.png") () = (true, None)
  ∧ result env (awskit.GetMetadata demo.store "logo.png") () = (None, None)
  ∧ result env' (awskit.GetMetadata demo.store "logo.png") ()
    = (None, Some samples.throttled).
Proof.
  intros bare env env'. split_and!.
  - destruct (Exists_agrees_with_GetMetadata env demo.store "logo.png" ())
      as (_ & _ & Hiff & _).
    apply Hiff. vm_compute. reflexivity.
  - destruct (Exists_agrees_with_GetMetadata env demo.store "logo.png" ())
      as (_ & _ & _ & Hout & _).
    apply (Hout {| awskit.Metadata := None |}). vm_compute. constructor.
  - destruct (Exists_agrees_with_GetMetadata env' demo.store "logo.png" ())
      as (_ & _ & _ & _ & Herr).
    apply Herr. vm_compute. constructor.
Defined.

(** A throttled [HeadObject]: [Exists] answers false with the API error,
    the operation error around it removed. *)
Lemma Exists_error_is_cause_witness :
  let env := s3observe.stateless
               (samples.s3 (inr samples.throttled) None (inl (demo.deleted [])) None) in
  let cause := awskit.APIError "SlowDown" "Please reduce your request rate" in
  result env (awskit.Exists demo.store "logo.png") () = (false, Some cause)
  ∧ awskit.Cause_of cause = cause.
Proof.
  intros env cause.
  assert (Hres : result env (awskit.Exists demo.store "logo.png") () = (false, Some cause))
    by (vm_compute; reflexivity).
  split; [exact Hres|].
  destruct (Exists_error_is_cause env demo.store "logo.png" () false cause Hres)
    as (_ & Hcause & _).
  exact Hcause.
Defined.

(** A PNG stored in a new bucket. *)
Example Put_demo :
  calls (objects.stateless (samples.disk None (inr samples.throttled)))
    (objects.Put samples.DetectMIMEType (objects.NewS3Bucket "assets") "logo.png"
       [x89; x50] {[ "owner" := "web" ]}) ()
  = [objects.PutObject
       {| objects.PutObject_Bucket := "assets";
          objects.PutObject_Key := "logo.png";
          objects.PutObject_Body := [x89; x50];
          objects.PutObject_ACL := "private";
          objects.PutObject_CacheControl := "public, max-age=14400";
          objects.PutObject_ContentType := "image/png";
          objects.PutObject_Metadata := {[ "owner" := "web" ]} |}].
Proof. vm_compute. reflexivity. Qed.

(** Body 3 reads as three bytes; body 0 breaks after one byte. *)
Lemma Get_content_or_error_witness :
  let eof := awskit.OtherError "unexpected EOF" in
  let p := objects.Get demo.store "logo.png" in
  result (objects.stateless (samples.disk None (inl {| objects.GetObject_Body := 3%nat |}))) p ()
    = (Some [x00; x00; x00], None)
  ∧ result (objects.stateless (samples.disk None (inl {| objects.GetObject_Body := 0%nat |}))) p ()
    = (None, Some (awskit.Wrap "io.ReadAll: " eof))
  ∧ result (objects.stateless (samples.disk None (inr samples.throttled))) p ()
    = (None, Some (awskit.Wrap "s3.GetObject: " samples.throttled)).
Proof.
  intros eof p. split_and!.
  - destruct (Get_content_or_error
                (objects.stateless (samples.disk None (inl {| objects.GetObject_Body := 3%nat |})))
                demo.store "logo.png" ()) as (_ & _ & Hread & _).
    apply Hread. vm_compute. constructor.
  - destruct (Get_content_or_error
                (objects.stateless (samples.disk None (inl {| objects.GetObject_Body := 0%nat |})))
                demo.store "logo.png" ()) as (_ & Hbroken & _).
    apply (Hbroken [x00]). vm_compute. constructor.
  - destruct (Get_content_or_error
                (objects.stateless (samples.disk None (inr samples.throttled)))
                demo.store "logo.png" ()) as (Hfailed & _).
    apply Hfailed. vm_compute. constructor.
Defined.

Lemma Get_closes_body_after_successful_read_witness :
  let input := {| objects.GetObject_Bucket := "assets"; objects.GetObject_Key := "logo.png" |} in
  let p := objects.Get demo.store "logo.png" in
  calls (objects.stateless (samples.disk None (inl {| objects.GetObject_Body := 3%nat |}))) p ()
    = [objects.GetObject input; objects.ReadAll 3%nat; objects.Close 3%nat]
  ∧ calls (objects.stateless (samples.disk None (inl {| objects.GetObject_Body := 0%nat |}))) p ()
    = [objects.GetObject input; objects.ReadAll 0%nat]
  ∧ calls (objects.stateless (samples.disk None (inr samples.throttled))) p ()
    = [objects.GetObject input].
Proof.
  intros input p. split_and!.
  - destruct (Get_closes_body_after_successful_read
                (objects.stateless (samples.disk None (inl {| objects.GetObject_Body := 3%nat |})))
                demo.store "logo.png" ()) as (_ & Hbody).
    destruct (Hbody {| objects.GetObject_Body := 3%nat |}) as (_ & Hread);
      [vm_compute; constructor|].
    apply (Hread [x00; x00; x00]). vm_compute. constructor.
  - destruct (Get_closes_body_after_successful_read
                (objects.stateless (samples.disk None (inl {| objects.GetObject_Body := 0%nat |})))
                demo.store "logo.png" ()) as (_ & Hbody).
    destruct (Hbody {| objects.GetObject_Body := 0%nat |}) as (Hbroken & _);
      [vm_compute; constructor|].
    apply (Hbroken [x00] (awskit.OtherError "unexpected EOF")). vm_compute. constructor.
  - destruct (Get_closes_body_after_successful_read
                (objects.stateless (samples.disk None (inr samples.throttled)))
                demo.store "logo.png" ()) as (Hfailed & _).
    apply (Hfailed samples.throttled). vm_compute. constructor.
Defined.
